(** * Yuura Intelligence Hub: the snapshot fetcher

    A shallow embedding of [scripts/data_collection/config.py] and
    [scripts/data_collection/fetch_snapshots.py], and the properties of
    the pipeline stated over it.

    The script is a linear orchestration of three library calls (one
    request to the channel-statistics API, one SELECT, one INSERT).  The
    libraries are not part of the repository: their answers are inputs of
    the model, held in a [world] record that also carries the database
    tables and the trace of what the process did. *)

From Stdlib Require Import ZArith String Ascii List Bool Lia.
From stdpp Require Import base option list gmap strings.
Import ListNotations.

#[local] Set Warnings "-register-all".

Local Open Scope Z_scope.
Local Open Scope string_scope.

(** ** Python values and exceptions *)

Module Py.

(** The classes below [psycopg2.Error] (DB-API 2.0). *)
Inductive pg_error : Type :=
| InterfaceError
| DatabaseError
| DataError
| OperationalError
| IntegrityError
| InternalError
| ProgrammingError
| NotSupportedError.

(** Instances of [Exception] the script can meet.  [EnvironmentError]
    is Python 3's alias of [OSError]; socket and timeout errors are
    [OSError]s too.  [KeyboardInterrupt] and [SystemExit] are not
    instances of [Exception] and are not raised by any modelled call. *)
Inductive exn : Type :=
| HttpError (status : Z)
| Psycopg2Error (cls : pg_error)
| OSError (msg : string)
| TransportError
| KeyError
| IndexError
| TypeError
| ValueError
| AttributeError.

Definition EnvironmentError := OSError.

(** [isinstance(e, HttpError)] and [isinstance(e, psycopg2.Error)]. *)
Definition is_HttpError (e : exn) : bool :=
  match e with HttpError _ => true | _ => false end.

Definition is_psycopg2_Error (e : exn) : bool :=
  match e with Psycopg2Error _ => true | _ => false end.

(** [isinstance(e, Exception)]: every modelled exception. *)
Definition is_Exception (e : exn) : bool := true.

(** What a call does: return a value or raise. *)
Inductive outcome (A : Type) : Type :=
| Return (a : A)
| Raise (e : exn).
Arguments Return {A} a.
Arguments Raise {A} e.

Definition obind {A B} (o : outcome A) (k : A -> outcome B) : outcome B :=
  match o with
  | Return a => k a
  | Raise e => Raise e
  end.

(** Values of a decoded JSON document.  An object is kept as the list
    of its members; lookup takes the first member with the key.  JSON
    numbers with a fraction (Python floats) are left out: the
    statistics resource carries its counters as strings.  A str is held
    as the sequence of its code points, each below 256 (one [ascii]
    holds one code point); texts with code points beyond that range are
    not values of the model. *)
Inductive pyval : Type :=
| PyNone
| PyBool (b : bool)
| PyInt (z : Z)
| PyStr (s : string)
| PyList (l : list pyval)
| PyDict (d : list (string * pyval)).

(** [bool(v)]. *)
Definition truthy (v : pyval) : bool :=
  match v with
  | PyNone => false
  | PyBool b => b
  | PyInt z => negb (Z.eqb z 0)
  | PyStr s => negb (String.eqb s "")
  | PyList l => match l with [] => false | _ => true end
  | PyDict d => match d with [] => false | _ => true end
  end.

Fixpoint assoc (k : string) (d : list (string * pyval)) : option pyval :=
  match d with
  | [] => None
  | (k', v) :: d' => if String.eqb k k' then Some v else assoc k d'
  end.

(** [v.get(k, default)]: only a dict has the method. *)
Definition get (v : pyval) (k : string) (default : pyval) : outcome pyval :=
  match v with
  | PyDict d => Return (match assoc k d with Some x => x | None => default end)
  | _ => Raise AttributeError
  end.

(** [v[k]] for a string key. *)
Definition getitem (v : pyval) (k : string) : outcome pyval :=
  match v with
  | PyDict d => match assoc k d with Some x => Return x | None => Raise KeyError end
  | _ => Raise TypeError
  end.

(** [v[0]]. *)
Definition getitem0 (v : pyval) : outcome pyval :=
  match v with
  | PyList [] => Raise IndexError
  | PyList (x :: _) => Return x
  | PyStr EmptyString => Raise IndexError
  | PyStr (String c _) => Return (PyStr (String c EmptyString))
  | PyDict _ => Raise KeyError
  | _ => Raise TypeError
  end.

(** *** [int(v)] *)

(** White space as [int] sees it, among the code points below 256:
    tab, line feed, vertical tab, form feed, carriage return and the
    space, and the two white-space characters past ASCII, NEL (0x85) and
    the no-break space (0xA0).  The separators 0x1C to 0x1F, which
    [str.strip] removes, are not white space for [int]. *)
Definition is_space (c : ascii) : bool :=
  let n := N_of_ascii c in
  ((9 <=? n) && (n <=? 13) || (n =? 32) || (n =? 133) || (n =? 160))%N.

Definition digit_val (c : ascii) : option Z :=
  let n := N_of_ascii c in
  if ((48 <=? n) && (n <=? 57))%N then Some (Z.of_N n - 48) else None.

Fixpoint lstrip (s : string) : string :=
  match s with
  | String c s' => if is_space c then lstrip s' else s
  | EmptyString => EmptyString
  end.

Fixpoint rev_string (s acc : string) : string :=
  match s with
  | EmptyString => acc
  | String c s' => rev_string s' (String c acc)
  end.

Definition strip (s : string) : string :=
  rev_string (lstrip (rev_string (lstrip s) "")) "".

(** Where the scanner of a decimal literal stands. *)
Inductive scan : Type := AtStart | AfterDigit | AfterUnderscore.

(** Digits, with single underscores allowed between two digits. *)
Fixpoint parse_digits (s : string) (st : scan) (acc : Z) : option Z :=
  match s with
  | EmptyString => match st with AfterDigit => Some acc | _ => None end
  | String c s' =>
      match digit_val c with
      | Some d => parse_digits s' AfterDigit (10 * acc + d)
      | None =>
          if Ascii.eqb c "_"%char
          then match st with
               | AfterDigit => parse_digits s' AfterUnderscore acc
               | _ => None
               end
          else None
      end
  end.

(** [sys.get_int_max_str_digits()] as the interpreter sets it (CPython
    3.11, and the security releases of the versions before it): [int]
    refuses a text with more digits. *)
Definition int_max_str_digits : N := 4300.

(** The digits of a text; underscores, the sign and white space do not
    count, leading zeros do. *)
Fixpoint count_digits (s : string) : N :=
  match s with
  | EmptyString => 0
  | String c s' =>
      ((match digit_val c with Some _ => 1 | None => 0 end) + count_digits s')%N
  end.

(** The digits of a literal, no more than the interpreter converts. *)
Definition literal (s : string) : option Z :=
  if (count_digits s <=? int_max_str_digits)%N
  then parse_digits s AtStart 0
  else None.

(** [int(s)], base 10: white space stripped, an optional sign, then the
    digits.  The only decimal digits below code point 256 are [0] to
    [9]. *)
Definition int_of_str (s : string) : option Z :=
  match strip s with
  | String "-"%char s' => option_map Z.opp (literal s')
  | String "+"%char s' => literal s'
  | s' => literal s'
  end.

Definition int (v : pyval) : outcome Z :=
  match v with
  | PyInt z => Return z
  | PyBool b => Return (if b then 1 else 0)
  | PyStr s => match int_of_str s with Some z => Return z | None => Raise ValueError end
  | PyNone | PyList _ | PyDict _ => Raise TypeError
  end.

(** The decimal text of a natural number, as the API writes an
    unsigned counter. *)
Definition digit_char (d : N) : ascii := ascii_of_N (48 + d).

Fixpoint decimal_aux (fuel : nat) (n : N) (acc : string) : string :=
  match fuel with
  | O => acc
  | S fuel' =>
      let acc' := String (digit_char (n mod 10)) acc in
      if (n <? 10)%N then acc' else decimal_aux fuel' (n / 10) acc'
  end.

Definition decimal (n : N) : string :=
  decimal_aux (S (N.to_nat (N.log2 n))) n "".

(** Texts made of decimal digits only. *)
Fixpoint digits_only (s : string) : Prop :=
  match s with
  | EmptyString => True
  | String c s' => (exists d, (d < 10)%N /\ c = digit_char d) /\ digits_only s'
  end.

End Py.

(** ** config.py *)

Module Config.
Import Py.

Record db_config : Type := {
  host : option string;
  database : option string;
  user : option string;
  password : option string;
  port : Z
}.

(** The module's globals once it is imported. *)
Record config : Type := {
  DB_CONFIG : db_config;
  YOUTUBE_API_KEY : option string;
  SUPABASE_URL : option string;
  SUPABASE_KEY : option string;
  YUURA_CHANNEL_ID : string
}.

(** [load_dotenv()]: variables of the .env file are added to the
    process environment; a variable already set keeps its value. *)
Definition load_dotenv (environ dotenv : gmap string string) : gmap string string :=
  environ ∪ dotenv.

(** [os.getenv(name)] is [None] when the variable is unset. *)
Definition getenv (environ : gmap string string) (name : string) : option string :=
  environ !! name.

(** [os.getenv(name, default)]. *)
Definition getenv_or (environ : gmap string string) (name default : string) : string :=
  match environ !! name with
  | Some v => v
  | None => default
  end.

(** [not value] for the result of [os.getenv]: [None] and the empty
    string are falsy. *)
Definition falsy (value : option string) : bool :=
  match value with
  | None => true
  | Some v => String.eqb v ""
  end.

Definition newline : string := String (ascii_of_nat 10) "".

(** The pairs checked by [validate_config], in the order of the source. *)
Definition required (cfg : config) : list (string * option string) :=
  [ ("YOUTUBE_API_KEY", YOUTUBE_API_KEY cfg);
    ("DB_HOST", host (DB_CONFIG cfg));
    ("DB_PASSWORD", password (DB_CONFIG cfg));
    ("SUPABASE_URL", SUPABASE_URL cfg) ].

(** [[name for name, value in required if not value]]. *)
Definition missing (cfg : config) : list string :=
  List.map fst (List.filter (fun nv => falsy (snd nv)) (required cfg)).

Definition missing_message (names : list string) : string :=
  "Missing required environment variables: " ++ String.concat ", " names
    ++ newline ++ "Please check your .env file.".

Definition validate_config (cfg : config) : outcome bool :=
  match missing cfg with
  | [] => Return true
  | names => Raise (EnvironmentError (missing_message names))
  end.

(** [int(os.getenv('DB_PORT', 5432))]. *)
Definition db_port (environ : gmap string string) : outcome Z :=
  match environ !! "DB_PORT" with
  | Some v => int (PyStr v)
  | None => int (PyInt 5432)
  end.

(** The body of the module, run when it is imported: the globals are
    read from the environment ([int] of a malformed DB_PORT raises
    here), then [validate_config()] is called. *)
Definition import_config (environ : gmap string string) : outcome config :=
  obind (db_port environ)
    (fun p =>
       let cfg :=
         {| DB_CONFIG := {| host := getenv environ "DB_HOST";
                            database := getenv environ "DB_NAME";
                            user := getenv environ "DB_USER";
                            password := getenv environ "DB_PASSWORD";
                            port := p |};
            YOUTUBE_API_KEY := getenv environ "YOUTUBE_API_KEY";
            SUPABASE_URL := getenv environ "SUPABASE_URL";
            SUPABASE_KEY := getenv environ "SUPABASE_KEY";
            YUURA_CHANNEL_ID :=
              getenv_or environ "YUURA_CHANNEL_ID" "UCrmtSeYObZJNG6OIC7Pw-_A" |} in
       obind (validate_config cfg) (fun _ => Return cfg)).

(** The variables [validate_config] looks at, and those of them that
    an environment leaves unset or empty. *)
Definition required_names : list string :=
  [ "YOUTUBE_API_KEY"; "DB_HOST"; "DB_PASSWORD"; "SUPABASE_URL" ].

Definition missing_in (environ : gmap string string) : list string :=
  List.filter (fun name => falsy (environ !! name)) required_names.

End Config.

(** ** fetch_snapshots.py *)

Module FetchSnapshots.
Import Py Config.

(** The dict returned by [fetch_channel_stats]. *)
Record stats : Type := {
  subscriber_count : Z;
  view_count : Z;
  video_count : Z
}.

(** Table [talents], the columns the script reads. *)
Module Talents.
Record row : Type := { id : string; youtube_id : string }.
End Talents.

(** Table [snapshots], the columns the script writes. *)
Module Snapshots.
Record row : Type := {
  talent_id : string;
  sub_count : Z;
  view_count : Z;
  video_count : Z;
  recorded_at : Z
}.
End Snapshots.

(** The lines the script prints, one constructor per diagnostic. *)
Inductive message : Type :=
| Banner (channel : string)
| ConnectingApi
| ApiConnected
| FetchingStats (channel : string)
| ChannelNotFound (channel : string)
| ApiError (e : exn)
| UnexpectedFetchError (e : exn)
| FetchFailed
| StatsFetched (s : stats)
| ConnectingDb
| DbConnected
| LookingUpTalent
| NoTalentFound (channel : string)
| DbErrorTalent (e : exn)
| TalentNotFound
| TalentFound (tid : string)
| SavingSnapshot
| DbErrorSaving (e : exn)
| SnapshotSaved
| SaveFailed
| DbConnectionError (e : exn)
| UnexpectedError (e : exn)
| ConnectionClosed.

(** What the process does to the outside, in order.  A call is
    recorded when it is made, whatever its outcome. *)
Inductive event : Type :=
| Print (m : message)
| ApiBuild (developerKey : option string)
| ApiExecute (channel : string)
| DbConnect (cfg : db_config)
| DbCursor
| DbSelect (channel : string)
| DbFetchone
| DbCursorClose
| DbInsert (tid : string) (s : stats)
| DbCommit
| DbRollback
| DbClose
| Uncaught (e : exn).

Definition is_network_event (ev : event) : bool :=
  match ev with ApiBuild _ | ApiExecute _ => true | _ => false end.

Definition is_db_event (ev : event) : bool :=
  match ev with
  | DbConnect _ | DbCursor | DbSelect _ | DbFetchone | DbCursorClose
  | DbInsert _ _ | DbCommit | DbRollback | DbClose => true
  | _ => false
  end.

Definition is_insert_event (ev : event) : bool :=
  match ev with DbInsert _ _ => true | _ => false end.

Inductive conn_state : Type := Open | Closed.

(** The outside of the process and what the process did to it.
    - [api_build], [api_execute]: how the API client will answer;
    - [db_faults]: the outcomes of the successive psycopg2 calls that
      can raise ([connect], [cursor], [execute], [fetchone], [commit],
      [rollback]), [None] for a call that goes through; past its end no
      call raises;
    - [talents], [snapshots]: the committed rows of the two tables;
    - [pending]: rows inserted by the open transaction;
    - [now]: the database clock;
    - [connection]: the connection object made by [psycopg2.connect],
      which is what the local [conn] of [main] is bound to;
    - [trace]: the events so far. *)
Record world : Type := {
  api_build : option exn;
  api_execute : string -> outcome pyval;
  db_faults : list (option exn);
  talents : list Talents.row;
  snapshots : list Snapshots.row;
  pending : list Snapshots.row;
  now : Z;
  connection : option conn_state;
  trace : list event
}.

Definition with_trace (w : world) (t : list event) : world :=
  {| api_build := api_build w; api_execute := api_execute w;
     db_faults := db_faults w; talents := talents w;
     snapshots := snapshots w; pending := pending w; now := now w;
     connection := connection w; trace := t |}.

Definition with_faults (w : world) (fs : list (option exn)) : world :=
  {| api_build := api_build w; api_execute := api_execute w;
     db_faults := fs; talents := talents w;
     snapshots := snapshots w; pending := pending w; now := now w;
     connection := connection w; trace := trace w |}.

Definition with_rows (w : world) (committed open : list Snapshots.row) : world :=
  {| api_build := api_build w; api_execute := api_execute w;
     db_faults := db_faults w; talents := talents w;
     snapshots := committed; pending := open; now := now w;
     connection := connection w; trace := trace w |}.

Definition with_connection (w : world) (c : option conn_state) : world :=
  {| api_build := api_build w; api_execute := api_execute w;
     db_faults := db_faults w; talents := talents w;
     snapshots := snapshots w; pending := pending w; now := now w;
     connection := c; trace := trace w |}.

(** *** The monad of the script: state, and exceptions that keep the
    state reached when they were raised. *)

Definition M (A : Type) : Type := world -> outcome A * world.

#[global] Instance M_ret : MRet M := fun A a w => (Return a, w).

#[global] Instance M_bind : MBind M := fun A B k m w =>
  match m w with
  | (Return a, w') => k a w'
  | (Raise e, w') => (Raise e, w')
  end.

Definition raise {A} (e : exn) : M A := fun w => (Raise e, w).

Definition lift {A} (o : outcome A) : M A := fun w => (o, w).

(** [try: body], followed by [except] clauses, each a class and a
    handler: the first clause whose class the exception is an instance
    of handles it. *)
Definition try_except {A} (body : M A)
    (clauses : list ((exn -> bool) * (exn -> M A))) : M A := fun w =>
  match body w with
  | (Return a, w') => (Return a, w')
  | (Raise e, w') =>
      match List.find (fun cl => fst cl e) clauses with
      | Some cl => snd cl e w'
      | None => (Raise e, w')
      end
  end.

(** [try: body finally: cleanup]. *)
Definition try_finally {A} (body : M A) (cleanup : M unit) : M A := fun w =>
  match body w with
  | (r, w') =>
      match cleanup w' with
      | (Return _, w'') => (r, w'')
      | (Raise e, w'') => (Raise e, w'')
      end
  end.

Definition gets {A} (f : world -> A) : M A := fun w => (Return (f w), w).

Definition modify (f : world -> world) : M unit := fun w => (Return tt, f w).

Definition emit (ev : event) : M unit :=
  modify (fun w => with_trace w (trace w ++ [ev])).

Definition print (m : message) : M unit := emit (Print m).

(** The first exception among the next [n] planned outcomes. *)
Fixpoint first_fault (n : nat) (fs : list (option exn)) : option exn :=
  match n, fs with
  | S n', None :: fs' => first_fault n' fs'
  | S _, Some e :: _ => Some e
  | _, _ => None
  end.

(** A psycopg2 call that can raise: it is recorded, then the next
    planned outcome decides. *)
Definition fallible (ev : event) : M unit := fun w =>
  let w1 := with_trace w (trace w ++ [ev]) in
  match db_faults w with
  | Some e :: fs => (Raise e, with_faults w1 fs)
  | None :: fs => (Return tt, with_faults w1 fs)
  | [] => (Return tt, w1)
  end.

(** *** The library calls *)

(** The service object made by [build]. *)
Inductive service : Type := YouTube (developerKey : option string).

(** The connection and cursor objects.  A cursor holds the rows of
    the last SELECT, each a 1-tuple [(id,)]. *)
Inductive pg_connection : Type := PgConnection.
Definition pg_cursor : Type := list string.

(** [build('youtube', 'v3', developerKey=key)]. *)
Definition build (key : option string) : M service := fun w =>
  let w1 := with_trace w (trace w ++ [ApiBuild key]) in
  match api_build w with
  | Some e => (Raise e, w1)
  | None => (Return (YouTube key), w1)
  end.

(** [youtube.channels().list(part='statistics', id=channel_id).execute()]. *)
Definition channels_list_execute (youtube : service) (channel_id : string)
    : M pyval := fun w =>
  (api_execute w channel_id, with_trace w (trace w ++ [ApiExecute channel_id])).

(** [psycopg2.connect] called with the entries of [DB_CONFIG].  The
    new session has no open transaction. *)
Definition psycopg2_connect (cfg : db_config) : M pg_connection :=
  fallible (DbConnect cfg) ;;
  modify (fun w => with_connection (with_rows w (snapshots w) []) (Some Open)) ;;
  mret PgConnection.

(** [conn.cursor()]. *)
Definition conn_cursor (conn : pg_connection) : M pg_cursor :=
  fallible DbCursor ;; mret [].

(** [cursor.execute("SELECT id FROM talents WHERE youtube_id = %s", (channel_id,))]. *)
Definition execute_select (cursor : pg_cursor) (channel_id : string) : M pg_cursor :=
  fallible (DbSelect channel_id) ;;
  gets (fun w =>
          List.map Talents.id
            (List.filter (fun r => String.eqb (Talents.youtube_id r) channel_id)
               (talents w))).

(** [cursor.fetchone()]: the next row, [None] when there is none. *)
Definition fetchone (cursor : pg_cursor) : M (option string) :=
  fallible DbFetchone ;; mret (List.head cursor).

(** [cursor.close()]. *)
Definition cursor_close (cursor : pg_cursor) : M unit := emit DbCursorClose.

(** [cursor.execute("INSERT INTO snapshots (...) VALUES (%s, %s, %s, %s, NOW())", ...)]:
    one row joins the open transaction, stamped by the database. *)
Definition execute_insert (cursor : pg_cursor) (tid : string) (sub view video : Z)
    : M unit :=
  fallible (DbInsert tid {| subscriber_count := sub; view_count := view;
                            video_count := video |}) ;;
  modify (fun w =>
            with_rows w (snapshots w)
              (pending w ++ [ {| Snapshots.talent_id := tid;
                                 Snapshots.sub_count := sub;
                                 Snapshots.view_count := view;
                                 Snapshots.video_count := video;
                                 Snapshots.recorded_at := now w |} ])).

(** [conn.commit()]: the rows of the transaction become permanent. *)
Definition conn_commit (conn : pg_connection) : M unit :=
  fallible DbCommit ;;
  modify (fun w => with_rows w (snapshots w ++ pending w) []).

(** [conn.rollback()]: a round trip to the server, which raises like
    the other calls (an [InterfaceError] on a connection that is lost);
    when it goes through, the rows of the open transaction are
    dropped. *)
Definition conn_rollback (conn : pg_connection) : M unit :=
  fallible DbRollback ;;
  modify (fun w => with_rows w (snapshots w) []).

(** [conn.close()] and [cursor.close()] release the local objects and
    go through; closing the connection drops the rows of the open
    transaction. *)
Definition conn_close (conn : pg_connection) : M unit :=
  emit DbClose ;;
  modify (fun w => with_connection (with_rows w (snapshots w) []) (Some Closed)).

(** The local [conn] of [main]: [None] from the assignment that opens
    [main] until [psycopg2.connect] has returned.  A connection object
    is always truthy. *)
Definition conn_is_None : M unit :=
  modify (fun w => with_connection w None).

Definition local_conn : M (option pg_connection) :=
  gets (fun w => match connection w with
                 | Some _ => Some PgConnection
                 | None => None
                 end).

(** *** The functions of the script *)

(** [response['items'][0]['statistics']]. *)
Definition statistics_of (response : pyval) : outcome pyval :=
  obind (getitem response "items")
    (fun l => obind (getitem0 l) (fun item => getitem item "statistics")).

(** [int(stats.get(key, 0))]. *)
Definition read_counter (statistics : pyval) (key : string) : outcome Z :=
  obind (get statistics key (PyInt 0)) int.

(** What the fetcher is to make of a counter of the statistics
    object [d]: the integer value of the member when it is present,
    zero when it is absent. *)
Definition counter_value (d : list (string * pyval)) (key : string) (n : Z) : Prop :=
  match assoc key d with
  | Some v => int v = Return n
  | None => n = 0
  end.

(** The members of the statistics object the fetcher reads. *)
Definition counter_keys : list string :=
  [ "subscriberCount"; "viewCount"; "videoCount" ].

Definition fetch_channel_stats (youtube : service) (channel_id : string)
    : M (option stats) :=
  try_except
    (response ← channels_list_execute youtube channel_id;
     items ← lift (get response "items" PyNone);
     if negb (truthy items)
     then print (ChannelNotFound channel_id) ;; mret None
     else
       statistics ← lift (statistics_of response);
       subs ← lift (read_counter statistics "subscriberCount");
       views ← lift (read_counter statistics "viewCount");
       videos ← lift (read_counter statistics "videoCount");
       mret (Some {| subscriber_count := subs; view_count := views;
                     video_count := videos |}))
    [ (is_HttpError, fun e => print (ApiError e) ;; mret None);
      (is_Exception, fun e => print (UnexpectedFetchError e) ;; mret None) ].

Definition get_talent_id (conn : pg_connection) (channel_id : string)
    : M (option string) :=
  try_except
    (cursor ← conn_cursor conn;
     cursor ← execute_select cursor channel_id;
     result ← fetchone cursor;
     cursor_close cursor ;;
     match result with
     | Some tid => mret (Some tid)
     | None => print (NoTalentFound channel_id) ;; mret None
     end)
    [ (is_psycopg2_Error, fun e => print (DbErrorTalent e) ;; mret None) ].

Definition save_snapshot (conn : pg_connection) (talent_id : string) (s : stats)
    : M bool :=
  try_except
    (cursor ← conn_cursor conn;
     execute_insert cursor talent_id
       (subscriber_count s) (view_count s) (video_count s) ;;
     conn_commit conn ;;
     cursor_close cursor ;;
     mret true)
    [ (is_psycopg2_Error,
       fun e => print (DbErrorSaving e) ;; conn_rollback conn ;; mret false) ].

(** [not talent_id]: [None] and the empty string are falsy. *)
Definition not_talent_id (talent_id : option string) : bool :=
  match talent_id with
  | Some tid => String.eqb tid ""
  | None => true
  end.

(** [main()].  The dict of a successful fetch has three keys and is
    truthy, so [if not stats] tests for [None]. *)
Definition main (cfg : config) : M Z :=
  let channel := YUURA_CHANNEL_ID cfg in
  print (Banner channel) ;;
  conn_is_None ;;
  try_finally
    (try_except
       (print ConnectingApi ;;
        youtube ← build (YOUTUBE_API_KEY cfg);
        print ApiConnected ;;
        print (FetchingStats channel) ;;
        fetched ← fetch_channel_stats youtube channel;
        match fetched with
        | None => print FetchFailed ;; mret 1
        | Some s =>
            print (StatsFetched s) ;;
            print ConnectingDb ;;
            conn ← psycopg2_connect (DB_CONFIG cfg);
            print DbConnected ;;
            print LookingUpTalent ;;
            talent_id ← get_talent_id conn channel;
            match talent_id with
            | Some tid =>
                if not_talent_id talent_id
                then print TalentNotFound ;; mret 1
                else
                  print (TalentFound tid) ;;
                  print SavingSnapshot ;;
                  saved ← save_snapshot conn tid s;
                  if saved : bool
                  then print SnapshotSaved ;; mret 0
                  else print SaveFailed ;; mret 1
            | None => print TalentNotFound ;; mret 1
            end
        end)
       [ (is_psycopg2_Error, fun e => print (DbConnectionError e) ;; mret 1);
         (is_Exception, fun e => print (UnexpectedError e) ;; mret 1) ])
    (conn ← local_conn;
     match conn with
     | Some c => conn_close c ;; print ConnectionClosed
     | None => mret tt
     end).

(** The process: importing the script imports [config] first, whose
    body validates the environment; then [sys.exit(main())].  An
    exception nobody catches ends the interpreter with status 1. *)
Definition script (environ dotenv : gmap string string) (w : world) : Z * world :=
  match import_config (load_dotenv environ dotenv) with
  | Raise e => (1, with_trace w (trace w ++ [Uncaught e]))
  | Return cfg =>
      match main cfg w with
      | (Return code, w') => (code, w')
      | (Raise e, w') => (1, with_trace w' (trace w' ++ [Uncaught e]))
      end
  end.

End FetchSnapshots.

(** ** Sample inputs *)

Module Samples.
Import Py Config FetchSnapshots.

Definition channel : string := "UCrmtSeYObZJNG6OIC7Pw-_A".

Definition talent_uuid : string := "0b0f3c1e-6d1c-4c58-9a55-0c2f4d1f7a10".

(** A statistics object with the given members. *)
Definition response_with (statistics : list (string * pyval)) : pyval :=
  PyDict [ ("kind", PyStr "youtube#channelListResponse");
           ("items", PyList [ PyDict [ ("kind", PyStr "youtube#channel");
                                       ("id", PyStr channel);
                                       ("statistics", PyDict statistics) ] ]) ].

Definition response_ok : pyval :=
  response_with [ ("viewCount", PyStr "34000");
                  ("subscriberCount", PyStr "1200");
                  ("hiddenSubscriberCount", PyBool false);
                  ("videoCount", PyStr "56") ].

(** The subscriber count is hidden: the member is absent. *)
Definition response_hidden : pyval :=
  response_with [ ("viewCount", PyStr "34000");
                  ("hiddenSubscriberCount", PyBool true);
                  ("videoCount", PyStr "56") ].

Definition response_negative : pyval :=
  response_with [ ("viewCount", PyStr "34000");
                  ("subscriberCount", PyStr "-5");
                  ("videoCount", PyStr "56") ].

Definition response_empty : pyval :=
  PyDict [ ("kind", PyStr "youtube#channelListResponse") ].

Definition environ_ok : gmap string string :=
  list_to_map [ ("YOUTUBE_API_KEY", "key"); ("DB_HOST", "db.example.org");
                ("DB_NAME", "postgres"); ("DB_USER", "postgres");
                ("DB_PASSWORD", "secret");
                ("SUPABASE_URL", "https://example.supabase.co") ].

Definition cfg_ok : config :=
  {| DB_CONFIG := {| host := Some "db.example.org"; database := Some "postgres";
                     user := Some "postgres"; password := Some "secret";
                     port := 5432 |};
     YOUTUBE_API_KEY := Some "key";
     SUPABASE_URL := Some "https://example.supabase.co";
     SUPABASE_KEY := None;
     YUURA_CHANNEL_ID := channel |}.

(** A world in which every call goes through. *)
Definition world_ok : world :=
  {| api_build := None;
     api_execute := fun _ => Return response_ok;
     db_faults := [];
     talents := [ {| Talents.id := talent_uuid; Talents.youtube_id := channel |} ];
     snapshots := [];
     pending := [];
     now := 1700000000;
     connection := None;
     trace := [] |}.

Definition stats_ok : stats :=
  {| subscriber_count := 1200; view_count := 34000; video_count := 56 |}.

(** The INSERT is refused by the database. *)
Definition world_insert_fails : world :=
  with_faults world_ok
    [ None; None; None; None; None; Some (Psycopg2Error IntegrityError) ].

(** No talent row has the channel identifier. *)
Definition world_no_talent : world :=
  {| api_build := None;
     api_execute := fun _ => Return response_ok;
     db_faults := [];
     talents := [ {| Talents.id := talent_uuid; Talents.youtube_id := "UCother" |} ];
     snapshots := [];
     pending := [];
     now := 1700000000;
     connection := None;
     trace := [] |}.

(** DB_NAME and DB_USER are not set. *)
Definition environ_no_db_name : gmap string string :=
  list_to_map [ ("YOUTUBE_API_KEY", "key"); ("DB_HOST", "db.example.org");
                ("DB_PASSWORD", "secret");
                ("SUPABASE_URL", "https://example.supabase.co") ].

(** DB_HOST is not set and DB_PASSWORD is empty. *)
Definition environ_no_host : gmap string string :=
  list_to_map [ ("YOUTUBE_API_KEY", "key"); ("DB_NAME", "postgres");
                ("DB_USER", "postgres"); ("DB_PASSWORD", "");
                ("SUPABASE_URL", "https://example.supabase.co") ].

Definition with_api (w : world) (r : outcome pyval) : world :=
  {| api_build := api_build w; api_execute := fun _ => r;
     db_faults := db_faults w; talents := talents w;
     snapshots := snapshots w; pending := pending w; now := now w;
     connection := connection w; trace := trace w |}.

End Samples.


(** ** Runs of [main] *)

Module Run.
Import Py Config FetchSnapshots.

Definition exit_code (cfg : config) (w : world) : outcome Z := fst (main cfg w).

Definition final (cfg : config) (w : world) : world := snd (main cfg w).

(** What [main] did: the events it added to the trace. *)
Definition events (cfg : config) (w : world) : list event :=
  drop (length (trace w)) (trace (final cfg w)).

(** The row [save_snapshot] writes. *)
Definition snapshot_row (tid : string) (s : stats) (t : Z) : Snapshots.row :=
  {| Snapshots.talent_id := tid;
     Snapshots.sub_count := subscriber_count s;
     Snapshots.view_count := view_count s;
     Snapshots.video_count := video_count s;
     Snapshots.recorded_at := t |}.

(** Events of each of the three functions [main] calls. *)
Definition of_fetch (ev : event) : bool :=
  match ev with
  | ApiExecute _
  | Print (ChannelNotFound _) | Print (ApiError _)
  | Print (UnexpectedFetchError _) => true
  | _ => false
  end.

Definition of_lookup (ev : event) : bool :=
  match ev with
  | DbCursor | DbSelect _ | DbFetchone | DbCursorClose
  | Print (NoTalentFound _) | Print (DbErrorTalent _) => true
  | _ => false
  end.

Definition of_save (ev : event) : bool :=
  match ev with
  | DbCursor | DbInsert _ _ | DbCommit | DbCursorClose => true
  | _ => false
  end.

(** The message of the [except] clause of [main] that handles [e]. *)
Definition handler_message (e : exn) : message :=
  if is_psycopg2_Error e then DbConnectionError e else UnexpectedError e.

(** The progress lines of a run that goes through every step:
    api-connected, stats-fetched, db-connected, talent-resolved,
    snapshot-saved. *)
Definition stages (s : stats) (tid : string) : list event :=
  [ Print ApiConnected; Print (StatsFetched s); Print DbConnected;
    Print (TalentFound tid); Print SnapshotSaved ].

(** The lines with which [main] reports why it gives up: a failed
    fetch, a talent that is not found, a failed write, a database
    connection error, any other exception. *)
Definition failure_message (m : message) : bool :=
  match m with
  | FetchFailed | TalentNotFound | SaveFailed
  | DbConnectionError _ | UnexpectedError _ => true
  | _ => false
  end.

(** [tid] is the identifier of a talent row for the channel. *)
Definition resolved (w : world) (channel tid : string) : Prop :=
  ∃ t, t ∈ talents w ∧ Talents.id t = tid ∧ Talents.youtube_id t = channel.

(** The ways through [main], with the events of the calls it made. *)
Inductive path : Type :=
| BuildRaised (e : exn)
| FetchNone (fevs : list event)
| ConnectRaised (fevs : list event) (s : stats) (e : exn)
| LookupRaised (fevs : list event) (s : stats) (levs : list event) (e : exn)
| LookupNone (fevs : list event) (s : stats) (levs : list event)
| SaveRaised (fevs : list event) (s : stats) (levs : list event)
    (tid : string) (sevs : list event) (e : exn)
| SaveFalse (fevs : list event) (s : stats) (levs : list event)
    (tid : string) (sevs : list event) (e : exn)
| RollbackRaised (fevs : list event) (s : stats) (levs : list event)
    (tid : string) (sevs : list event) (e e' : exn)
| Saved (fevs : list event) (s : stats) (levs : list event) (tid : string).

Section Paths.
Variable cfg : config.

Let channel := YUURA_CHANNEL_ID cfg.

Definition started : list event :=
  [ Print (Banner channel); Print ConnectingApi; ApiBuild (YOUTUBE_API_KEY cfg) ].

Definition fetched (fevs : list event) : list event :=
  started ++ [ Print ApiConnected; Print (FetchingStats channel) ] ++ fevs.

Definition connecting (fevs : list event) (s : stats) : list event :=
  fetched fevs ++ [ Print (StatsFetched s); Print ConnectingDb;
                    DbConnect (DB_CONFIG cfg) ].

Definition looked_up (fevs : list event) (s : stats) (levs : list event)
    : list event :=
  connecting fevs s ++ [ Print DbConnected; Print LookingUpTalent ] ++ levs.

Definition saving (fevs : list event) (s : stats) (levs : list event)
    (tid : string) (sevs : list event) : list event :=
  looked_up fevs s levs ++ [ Print (TalentFound tid); Print SavingSnapshot ] ++ sevs.

Definition closing : list event := [ DbClose; Print ConnectionClosed ].

Definition path_events (p : path) : list event :=
  match p with
  | BuildRaised e => started ++ [ Print (handler_message e) ]
  | FetchNone fevs => fetched fevs ++ [ Print FetchFailed ]
  | ConnectRaised fevs s e => connecting fevs s ++ [ Print (handler_message e) ]
  | LookupRaised fevs s levs e =>
      looked_up fevs s levs ++ [ Print (UnexpectedError e) ] ++ closing
  | LookupNone fevs s levs =>
      looked_up fevs s levs ++ [ Print TalentNotFound ] ++ closing
  | SaveRaised fevs s levs tid sevs e =>
      saving fevs s levs tid sevs ++ [ Print (UnexpectedError e) ] ++ closing
  | SaveFalse fevs s levs tid sevs e =>
      saving fevs s levs tid
        (sevs ++ [ Print (DbErrorSaving e); DbRollback ])
        ++ [ Print SaveFailed ] ++ closing
  | RollbackRaised fevs s levs tid sevs e e' =>
      saving fevs s levs tid
        (sevs ++ [ Print (DbErrorSaving e); DbRollback ])
        ++ [ Print (handler_message e') ] ++ closing
  | Saved fevs s levs tid =>
      saving fevs s levs tid [ DbCursor; DbInsert tid s; DbCommit; DbCursorClose ]
        ++ [ Print SnapshotSaved ] ++ closing
  end.

Definition path_code (p : path) : Z :=
  match p with
  | Saved _ _ _ _ => 0
  | _ => 1
  end.

(** Whether the path went past [psycopg2.connect]. *)
Definition path_connected (p : path) : bool :=
  match p with
  | BuildRaised _ | FetchNone _ | ConnectRaised _ _ _ => false
  | _ => true
  end.

(** The rows the path adds to table [snapshots]. *)
Definition path_rows (t : Z) (p : path) : list Snapshots.row :=
  match p with
  | Saved _ s _ tid => [ snapshot_row tid s t ]
  | _ => []
  end.

(** What [fetch_channel_stats] returns in world [w]. *)
Definition fetch_result (w : world) : outcome (option stats) :=
  fst (fetch_channel_stats (YouTube (YOUTUBE_API_KEY cfg)) channel w).

Definition path_ok (w : world) (p : path) : Prop :=
  match p with
  | BuildRaised e => api_build w = Some e
  | FetchNone fevs =>
      api_build w = None ∧ fetch_result w = Return None ∧ Forall of_fetch fevs
  | ConnectRaised fevs s e =>
      api_build w = None ∧ fetch_result w = Return (Some s)
      ∧ Forall of_fetch fevs
  | LookupRaised fevs s levs e =>
      api_build w = None ∧ fetch_result w = Return (Some s)
      ∧ Forall of_fetch fevs ∧ Forall of_lookup levs
      ∧ is_psycopg2_Error e = false
  | LookupNone fevs s levs =>
      api_build w = None ∧ fetch_result w = Return (Some s)
      ∧ Forall of_fetch fevs ∧ Forall of_lookup levs
  | SaveRaised fevs s levs tid sevs e =>
      api_build w = None ∧ fetch_result w = Return (Some s)
      ∧ Forall of_fetch fevs ∧ Forall of_lookup levs ∧ Forall of_save sevs
      ∧ is_psycopg2_Error e = false ∧ resolved w channel tid
  | SaveFalse fevs s levs tid sevs e =>
      api_build w = None ∧ fetch_result w = Return (Some s)
      ∧ Forall of_fetch fevs ∧ Forall of_lookup levs ∧ Forall of_save sevs
      ∧ is_psycopg2_Error e = true ∧ resolved w channel tid
  | RollbackRaised fevs s levs tid sevs e e' =>
      api_build w = None ∧ fetch_result w = Return (Some s)
      ∧ Forall of_fetch fevs ∧ Forall of_lookup levs ∧ Forall of_save sevs
      ∧ is_psycopg2_Error e = true ∧ resolved w channel tid
  | Saved fevs s levs tid =>
      api_build w = None ∧ fetch_result w = Return (Some s)
      ∧ Forall of_fetch fevs ∧ Forall of_lookup levs ∧ resolved w channel tid
  end.

End Paths.

(** Every step of the pipeline goes through in [w]: the API client is
    built, the fetch returns the record [s], none of the seven database
    calls of a saving run raises ([connect]; [cursor], the SELECT,
    [fetchone]; [cursor], the INSERT, [commit]), and the first talent
    row the SELECT yields has the identifier [tid], which is not
    empty. *)
Definition completes (cfg : config) (w : world) (s : stats) (tid : string) : Prop :=
  api_build w = None
  ∧ fetch_result cfg w = Return (Some s)
  ∧ first_fault 7 (db_faults w) = None
  ∧ List.head
      (List.map Talents.id
         (List.filter
            (fun r => String.eqb (Talents.youtube_id r) (YUURA_CHANNEL_ID cfg))
            (talents w)))
    = Some tid
  ∧ tid <> "".

(** What a run does when every step goes through, call by call and
    line by line. *)
Definition complete_run (cfg : config) (s : stats) (tid : string) : list event :=
  let channel := YUURA_CHANNEL_ID cfg in
  [ Print (Banner channel); Print ConnectingApi; ApiBuild (YOUTUBE_API_KEY cfg);
    Print ApiConnected; Print (FetchingStats channel); ApiExecute channel;
    Print (StatsFetched s); Print ConnectingDb; DbConnect (DB_CONFIG cfg);
    Print DbConnected; Print LookingUpTalent;
    DbCursor; DbSelect channel; DbFetchone; DbCursorClose;
    Print (TalentFound tid); Print SavingSnapshot;
    DbCursor; DbInsert tid s; DbCommit; DbCursorClose;
    Print SnapshotSaved; DbClose; Print ConnectionClosed ].

End Run.

(** ** The calls each function makes *)

Module Calls.
Import Py Config FetchSnapshots Run.

(** The database calls of [get_talent_id] and of [save_snapshot], in the
    order of the source. *)
Definition lookup_calls (channel : string) : list event :=
  [ DbCursor; DbSelect channel; DbFetchone ].

Definition save_calls (tid : string) (s : stats) : list event :=
  [ DbCursor; DbInsert tid s; DbCommit ].

(** What [fetch_channel_stats] returns, with the events it adds: the
    request, then at most one diagnostic. *)
Inductive fetch_run (channel : string) : option stats -> list event -> Prop :=
| fetch_ok s : fetch_run channel (Some s) [ ApiExecute channel ]
| fetch_no_channel :
    fetch_run channel None [ ApiExecute channel; Print (ChannelNotFound channel) ]
| fetch_api_error e :
    is_HttpError e = true ->
    fetch_run channel None [ ApiExecute channel; Print (ApiError e) ]
| fetch_unexpected e :
    is_HttpError e = false ->
    fetch_run channel None [ ApiExecute channel; Print (UnexpectedFetchError e) ].

(** What [get_talent_id] returns or raises, the number of database
    calls it made, and the events it adds. *)
Inductive lookup_run (channel : string)
    : outcome (option string) -> nat -> list event -> Prop :=
| lookup_found tid :
    lookup_run channel (Return (Some tid)) 3
      (lookup_calls channel ++ [ DbCursorClose ])
| lookup_none :
    lookup_run channel (Return None) 3
      (lookup_calls channel ++ [ DbCursorClose; Print (NoTalentFound channel) ])
| lookup_db_error k e :
    (1 <= k <= 3)%nat ->
    is_psycopg2_Error e = true ->
    lookup_run channel (Return None) k
      (take k (lookup_calls channel) ++ [ Print (DbErrorTalent e) ])
| lookup_raised k e :
    (1 <= k <= 3)%nat ->
    is_psycopg2_Error e = false ->
    lookup_run channel (Raise e) k (take k (lookup_calls channel)).

(** The same for [save_snapshot]; the rollback is one more call. *)
Inductive save_run (tid : string) (s : stats)
    : outcome bool -> nat -> list event -> Prop :=
| save_ok :
    save_run tid s (Return true) 3 (save_calls tid s ++ [ DbCursorClose ])
| save_db_error k e :
    (1 <= k <= 3)%nat ->
    is_psycopg2_Error e = true ->
    save_run tid s (Return false) (S k)
      (take k (save_calls tid s) ++ [ Print (DbErrorSaving e); DbRollback ])
| save_rollback_raised k e e' :
    (1 <= k <= 3)%nat ->
    is_psycopg2_Error e = true ->
    save_run tid s (Raise e') (S k)
      (take k (save_calls tid s) ++ [ Print (DbErrorSaving e); DbRollback ])
| save_raised k e :
    (1 <= k <= 3)%nat ->
    is_psycopg2_Error e = false ->
    save_run tid s (Raise e) k (take k (save_calls tid s)).

(** How many events of a kind a list holds. *)
Definition count (kind : event -> bool) (evs : list event) : nat :=
  length (List.filter kind evs).

Definition is_api_request (ev : event) : bool :=
  match ev with ApiExecute _ => true | _ => false end.

Definition is_connect (ev : event) : bool :=
  match ev with DbConnect _ => true | _ => false end.

Definition is_select (ev : event) : bool :=
  match ev with DbSelect _ => true | _ => false end.

Definition is_commit (ev : event) : bool :=
  match ev with DbCommit => true | _ => false end.

Definition is_rollback (ev : event) : bool :=
  match ev with DbRollback => true | _ => false end.

Definition is_close (ev : event) : bool :=
  match ev with DbClose => true | _ => false end.

Definition is_cursor_close (ev : event) : bool :=
  match ev with DbCursorClose => true | _ => false end.

(** The events of the calls made on a path of [main], exactly. *)
Definition path_exact (cfg : config) (p : path) : Prop :=
  let channel := YUURA_CHANNEL_ID cfg in
  match p with
  | BuildRaised e => True
  | FetchNone fevs => fetch_run channel None fevs
  | ConnectRaised fevs s e => fetch_run channel (Some s) fevs
  | LookupRaised fevs s levs e =>
      fetch_run channel (Some s) fevs
      ∧ ∃ k, lookup_run channel (Raise e) k levs
  | LookupNone fevs s levs =>
      fetch_run channel (Some s) fevs
      ∧ ∃ r k, lookup_run channel (Return r) k levs ∧ not_talent_id r = true
  | SaveRaised fevs s levs tid sevs e =>
      fetch_run channel (Some s) fevs
      ∧ lookup_run channel (Return (Some tid)) 3 levs
      ∧ ∃ k, (1 <= k <= 3)%nat ∧ sevs = take k (save_calls tid s)
  | SaveFalse fevs s levs tid sevs e =>
      fetch_run channel (Some s) fevs
      ∧ lookup_run channel (Return (Some tid)) 3 levs
      ∧ ∃ k, (1 <= k <= 3)%nat ∧ sevs = take k (save_calls tid s)
  | RollbackRaised fevs s levs tid sevs e e' =>
      fetch_run channel (Some s) fevs
      ∧ lookup_run channel (Return (Some tid)) 3 levs
      ∧ ∃ k, (1 <= k <= 3)%nat ∧ sevs = take k (save_calls tid s)
  | Saved fevs s levs tid =>
      fetch_run channel (Some s) fevs
      ∧ lookup_run channel (Return (Some tid)) 3 levs
  end.

(** The events a computation adds to the trace of [w]. *)
Definition added {A} (m : M A) (w : world) : list event :=
  drop (length (trace w)) (trace (snd (m w))).

(** The outcome planned for the call that follows the first call that
    raises: in [save_snapshot], the rollback. *)
Fixpoint after_fault (fs : list (option exn)) : option exn :=
  match fs with
  | None :: fs' => after_fault fs'
  | Some _ :: fs' => first_fault 1 fs'
  | [] => None
  end.

(** What a configured run may do with its identifiers. *)
Definition configured (cfg : config) (ev : event) : Prop :=
  match ev with
  | ApiBuild key => key = YOUTUBE_API_KEY cfg
  | ApiExecute channel => channel = YUURA_CHANNEL_ID cfg
  | DbConnect db => db = DB_CONFIG cfg
  | DbSelect channel => channel = YUURA_CHANNEL_ID cfg
  | _ => True
  end.

(** The world at a later time of day. *)
Definition at_time (w : world) (t : Z) : world :=
  {| api_build := api_build w; api_execute := api_execute w;
     db_faults := db_faults w; talents := talents w; snapshots := snapshots w;
     pending := pending w; now := t; connection := connection w;
     trace := trace w |}.

End Calls.

(** ** More sample inputs *)

Module Scenarios.
Import Py Config FetchSnapshots Samples.

Definition item_ok : pyval :=
  PyDict [ ("kind", PyStr "youtube#channel"); ("id", PyStr channel);
           ("statistics", PyDict [ ("viewCount", PyStr "34000");
                                   ("subscriberCount", PyStr "1200");
                                   ("videoCount", PyStr "56") ]) ].

Definition item_other : pyval :=
  PyDict [ ("kind", PyStr "youtube#channel"); ("id", PyStr "UCother");
           ("statistics", PyDict [ ("viewCount", PyStr "7");
                                   ("subscriberCount", PyStr "8");
                                   ("videoCount", PyStr "9") ]) ].

Definition items_two : list (string * pyval) :=
  [ ("kind", PyStr "youtube#channelListResponse");
    ("items", PyList [ item_ok; item_other ]) ].

Definition items_one : list (string * pyval) :=
  [ ("kind", PyStr "youtube#channelListResponse");
    ("items", PyList [ item_ok ]) ].

(** The three counters and nothing else. *)
Definition statistics_plain : list (string * pyval) :=
  [ ("viewCount", PyStr "34000"); ("subscriberCount", PyStr "1200");
    ("videoCount", PyStr "56") ].

Definition statistics_ok : list (string * pyval) :=
  [ ("viewCount", PyStr "34000"); ("subscriberCount", PyStr "1200");
    ("hiddenSubscriberCount", PyBool false); ("videoCount", PyStr "56") ].

(** The item was requested without its statistics part. *)
Definition response_no_statistics : pyval :=
  PyDict [ ("kind", PyStr "youtube#channelListResponse");
           ("items", PyList [ PyDict [ ("kind", PyStr "youtube#channel");
                                       ("id", PyStr channel) ] ]) ].

(** The subscriber counter is abbreviated. *)
Definition statistics_abbreviated : list (string * pyval) :=
  [ ("viewCount", PyStr "34000"); ("subscriberCount", PyStr "1.2K");
    ("videoCount", PyStr "56") ].

(** Two talent rows have the channel identifier, after one that has
    not. *)
Definition talents_three : list Talents.row :=
  [ {| Talents.id := "a"; Talents.youtube_id := "UCother" |};
    {| Talents.id := talent_uuid; Talents.youtube_id := channel |};
    {| Talents.id := "c"; Talents.youtube_id := channel |} ].

Definition world_three_talents : world :=
  {| api_build := None;
     api_execute := fun _ => Return response_ok;
     db_faults := [];
     talents := talents_three;
     snapshots := [];
     pending := [];
     now := 1700000000;
     connection := None;
     trace := [] |}.

(** Building the API client fails. *)
Definition world_build_fails : world :=
  {| api_build := Some TransportError;
     api_execute := fun _ => Return response_ok;
     db_faults := [];
     talents := talents world_ok;
     snapshots := [];
     pending := [];
     now := 1700000000;
     connection := None;
     trace := [] |}.

(** The connection is lost while the INSERT runs: the INSERT raises,
    and so does the rollback. *)
Definition world_rollback_fails : world :=
  with_faults world_ok
    [ None; None; None; None; None; Some (Psycopg2Error OperationalError);
      Some (Psycopg2Error InterfaceError) ].

(** The database cannot be reached. *)
Definition world_connect_fails : world :=
  with_faults world_ok [ Some (Psycopg2Error OperationalError) ].

(** The INSERT raises an exception that is not a database error. *)
Definition world_insert_type_error : world :=
  with_faults world_ok [ None; Some TypeError ].

(** DB_PORT is set to the empty text and nothing else is set. *)
Definition environ_empty_port : gmap string string :=
  list_to_map [ ("DB_PORT", "") ].

End Scenarios.

(** * Properties *)

Import Py Config FetchSnapshots Run Samples Calls Scenarios.

(** ** [int] on the decimal text of a number *)

Lemma small_digit (d : N) :
  (d < 10)%N ->
  d = 0%N ∨ d = 1%N ∨ d = 2%N ∨ d = 3%N ∨ d = 4%N ∨ d = 5%N ∨ d = 6%N
  ∨ d = 7%N ∨ d = 8%N ∨ d = 9%N.
Proof. lia. Qed.

Ltac each_digit d H :=
  destruct (small_digit d H) as [->|[->|[->|[->|[->|[->|[->|[->|[->| ->]]]]]]]]].

Lemma digit_val_digit_char d :
  (d < 10)%N -> digit_val (digit_char d) = Some (Z.of_N d).
Proof. intros H. each_digit d H; reflexivity. Qed.

Lemma is_space_digit_char d : (d < 10)%N -> is_space (digit_char d) = false.
Proof. intros H. each_digit d H; reflexivity. Qed.

Lemma parse_digits_digit d s st a :
  (d < 10)%N ->
  parse_digits (String (digit_char d) s) st a
  = parse_digits s AfterDigit (10 * a + Z.of_N d).
Proof. intros H. cbn [parse_digits]. now rewrite digit_val_digit_char. Qed.

(** Scanning the digits written by [decimal_aux] in front of a text
    [acc] that scans to [a * 10 ^ k + v]. *)
Lemma parse_digits_decimal_aux fuel :
  ∀ n acc k v,
    (0 < fuel)%nat ->
    (n < 2 ^ N.of_nat fuel)%N ->
    0 <= k ->
    (∀ a, parse_digits acc AfterDigit a = Some (a * 10 ^ k + v)) ->
    ∃ k', 0 <= k'
          ∧ ∀ st a, parse_digits (decimal_aux fuel n acc) st a
                    = Some (a * 10 ^ k' + (Z.of_N n * 10 ^ k + v)).
Proof.
  induction fuel as [|fuel IH]; intros n acc k v Hfuel Hn Hk Hacc; [lia|].
  cbn [decimal_aux].
  assert (Hd : (n mod 10 < 10)%N) by (apply N.mod_lt; lia).
  assert (Hacc' : ∀ st a,
             parse_digits (String (digit_char (n mod 10)) acc) st a
             = Some (a * 10 ^ (k + 1) + (Z.of_N (n mod 10) * 10 ^ k + v))).
  { intros st a. rewrite parse_digits_digit, Hacc by assumption.
    f_equal. rewrite Z.pow_add_r by lia. ring. }
  destruct (N.ltb_spec n 10) as [Hsmall|Hbig].
  - exists (k + 1). split; [lia|]. intros st a.
    rewrite Hacc'. now rewrite N.mod_small by assumption.
  - assert (Hq : (1 <= n / 10)%N) by (apply N.div_le_lower_bound; lia).
    assert (Hlt : (n / 10 < 2 ^ N.of_nat fuel)%N).
    { apply N.Div0.div_lt_upper_bound.
      replace (N.of_nat (S fuel)) with (N.succ (N.of_nat fuel)) in Hn by lia.
      rewrite N.pow_succ_r' in Hn. lia. }
    assert (Hfuel' : (0 < fuel)%nat).
    { destruct fuel; [cbn in Hlt; lia|lia]. }
    destruct (IH (n / 10)%N (String (digit_char (n mod 10)) acc) (k + 1)
                (Z.of_N (n mod 10) * 10 ^ k + v) Hfuel' Hlt ltac:(lia)
                (Hacc' AfterDigit)) as (k' & Hk' & Hparse).
    exists k'. split; [assumption|]. intros st a. rewrite Hparse. f_equal.
    rewrite Z.pow_add_r by lia.
    rewrite (N.div_mod n 10) at 3 by lia.
    rewrite N2Z.inj_add, N2Z.inj_mul. cbn. ring.
Qed.

Lemma parse_digits_decimal n : parse_digits (decimal n) AtStart 0 = Some (Z.of_N n).
Proof.
  unfold decimal.
  destruct (parse_digits_decimal_aux (S (N.to_nat (N.log2 n))) n "" 0 0)
    as (k' & _ & H).
  - lia.
  - rewrite Nat2N.inj_succ, N2Nat.id.
    destruct n as [|p]; [reflexivity|]. apply N.log2_spec. lia.
  - lia.
  - intros a. cbn. f_equal. lia.
  - rewrite H. f_equal. lia.
Qed.

Lemma digits_only_decimal_aux fuel :
  ∀ n acc, digits_only acc -> digits_only (decimal_aux fuel n acc).
Proof.
  induction fuel as [|fuel IH]; intros n acc Hacc; [exact Hacc|].
  cbn [decimal_aux].
  assert (Hacc' : digits_only (String (digit_char (n mod 10)) acc)).
  { split; [|exact Hacc]. exists (n mod 10)%N.
    split; [apply N.mod_lt; lia|reflexivity]. }
  destruct (n <? 10)%N; [exact Hacc'|now apply IH].
Qed.

Lemma decimal_aux_not_empty fuel n acc :
  (0 < fuel)%nat -> decimal_aux fuel n acc <> "".
Proof.
  revert n acc. induction fuel as [|fuel IH]; intros n acc Hfuel; [lia|].
  cbn [decimal_aux]. destruct (n <? 10)%N; [discriminate|].
  destruct fuel as [|fuel']; [discriminate|]. apply IH. lia.
Qed.

Lemma digits_only_rev_string s :
  ∀ acc, digits_only s -> digits_only acc -> digits_only (rev_string s acc).
Proof.
  induction s as [|c s IH]; intros acc Hs Hacc; [exact Hacc|].
  destruct Hs as [Hc Hs]. cbn [rev_string]. apply IH; [exact Hs|].
  split; assumption.
Qed.

Lemma lstrip_digits_only s : digits_only s -> lstrip s = s.
Proof.
  destruct s as [|c s]; [reflexivity|].
  intros [(d & Hd & ->) _]. cbn [lstrip]. now rewrite is_space_digit_char.
Qed.

Lemma rev_string_rev_string s :
  ∀ a b, rev_string (rev_string s a) b = rev_string a (s ++ b).
Proof.
  induction s as [|c s IH]; intros a b; [reflexivity|].
  cbn [rev_string]. rewrite IH. reflexivity.
Qed.

Lemma append_empty_r (s : string) : s ++ "" = s.
Proof.
  induction s as [|c s IH]; [reflexivity|].
  change (String c (s ++ "") = String c s). now rewrite IH.
Qed.

Lemma strip_digits_only s : digits_only s -> strip s = s.
Proof.
  intros Hs. unfold strip.
  rewrite (lstrip_digits_only s Hs).
  rewrite lstrip_digits_only by (apply digits_only_rev_string; [exact Hs|exact I]).
  rewrite rev_string_rev_string. cbn [rev_string]. apply append_empty_r.
Qed.

Lemma int_of_str_unsigned s d rest :
  (d < 10)%N ->
  strip s = String (digit_char d) rest ->
  int_of_str s = literal (String (digit_char d) rest).
Proof.
  intros Hd Hs. unfold int_of_str. rewrite Hs. each_digit d Hd; reflexivity.
Qed.

Lemma count_digits_digits_only s :
  digits_only s -> count_digits s = N.of_nat (String.length s).
Proof.
  induction s as [|c s IH]; [reflexivity|].
  intros [(d & Hd & ->) Hs]. cbn [count_digits String.length].
  rewrite digit_val_digit_char, (IH Hs) by assumption. lia.
Qed.

(** A number below [10 ^ k] is written with at most [k] digits. *)
Lemma length_decimal_aux_le fuel :
  ∀ n acc k,
    (0 < k)%N ->
    (n < 10 ^ k)%N ->
    (N.of_nat (String.length (decimal_aux fuel n acc))
     <= k + N.of_nat (String.length acc))%N.
Proof.
  induction fuel as [|fuel IH]; intros n acc k Hk Hn; [cbn; lia|].
  cbn [decimal_aux].
  destruct (N.ltb_spec n 10) as [Hsmall|Hbig]; [cbn [String.length]; lia|].
  assert (Hk' : (1 < k)%N).
  { destruct (N.eq_dec k 1%N) as [->|]; [cbn in Hn; lia|lia]. }
  assert (Hq : (n / 10 < 10 ^ (k - 1))%N).
  { apply N.Div0.div_lt_upper_bound.
    rewrite <- N.pow_succ_r'. now replace (N.succ (k - 1)) with k by lia. }
  specialize (IH (n / 10)%N (String (digit_char (n mod 10)) acc) (k - 1)%N
                ltac:(lia) Hq).
  cbn [String.length] in IH. lia.
Qed.

(** A number that is at least [10 ^ k] is written with more than [k]
    digits, when the fuel is enough to write it. *)
Lemma length_decimal_aux_ge fuel :
  ∀ n acc k,
    (0 < fuel)%nat ->
    (n < 2 ^ N.of_nat fuel)%N ->
    (10 ^ k <= n)%N ->
    (k + 1 + N.of_nat (String.length acc)
     <= N.of_nat (String.length (decimal_aux fuel n acc)))%N.
Proof.
  induction fuel as [|fuel IH]; intros n acc k Hfuel Hfuel_n Hn; [lia|].
  cbn [decimal_aux].
  destruct (N.ltb_spec n 10) as [Hsmall|Hbig].
  - assert (k = 0%N) as ->.
    { destruct (N.eq_dec k 0%N) as [|Hne]; [assumption|].
      assert (10 ^ 1 <= 10 ^ k)%N by (apply N.pow_le_mono_r; lia).
      cbn in *; lia. }
    cbn [String.length]. lia.
  - assert (Hlt : (n / 10 < 2 ^ N.of_nat fuel)%N).
    { apply N.Div0.div_lt_upper_bound.
      replace (N.of_nat (S fuel)) with (N.succ (N.of_nat fuel)) in Hfuel_n by lia.
      rewrite N.pow_succ_r' in Hfuel_n. lia. }
    assert (Hq : (1 <= n / 10)%N) by (apply N.div_le_lower_bound; lia).
    assert (Hfuel' : (0 < fuel)%nat).
    { destruct fuel; [cbn in Hlt; lia|lia]. }
    assert (Hpow : (10 ^ (k - 1) <= n / 10)%N).
    { destruct (N.eq_dec k 0%N) as [->|Hne]; [exact Hq|].
      apply N.div_le_lower_bound; [lia|].
      rewrite <- N.pow_succ_r'. now replace (N.succ (k - 1)) with k by lia. }
    specialize (IH (n / 10)%N (String (digit_char (n mod 10)) acc) (k - 1)%N
                  Hfuel' Hlt Hpow).
    cbn [String.length] in IH. lia.
Qed.

Lemma digits_only_decimal n : digits_only (decimal n).
Proof. apply digits_only_decimal_aux. exact I. Qed.

Lemma count_digits_decimal_le n k :
  (0 < k)%N -> (n < 10 ^ k)%N -> (count_digits (decimal n) <= k)%N.
Proof.
  intros Hk Hn. rewrite (count_digits_digits_only _ (digits_only_decimal n)).
  pose proof (length_decimal_aux_le (S (N.to_nat (N.log2 n))) n "" k Hk Hn) as H.
  cbn [String.length] in H. unfold decimal. lia.
Qed.

Lemma count_digits_decimal_gt n k :
  (10 ^ k <= n)%N -> (k < count_digits (decimal n))%N.
Proof.
  intros Hn. rewrite (count_digits_digits_only _ (digits_only_decimal n)).
  assert (Hpos : (0 < n)%N).
  { assert (0 < 10 ^ k)%N by (apply N.neq_0_lt_0, N.pow_nonzero; lia). lia. }
  pose proof (length_decimal_aux_ge (S (N.to_nat (N.log2 n))) n "" k
                ltac:(lia)) as H.
  cbn [String.length] in H. unfold decimal.
  assert (n < 2 ^ N.of_nat (S (N.to_nat (N.log2 n))))%N.
  { rewrite Nat2N.inj_succ, N2Nat.id. apply N.log2_spec. lia. }
  specialize (H ltac:(assumption) Hn). lia.
Qed.

(** [int] on the decimal text of a number: the text is a literal, and
    it is converted when it has no more digits than the interpreter
    accepts. *)
Lemma int_decimal_literal n :
  int (PyStr (decimal n))
  = if (count_digits (decimal n) <=? int_max_str_digits)%N
    then Return (Z.of_N n)
    else Raise ValueError.
Proof.
  pose proof (digits_only_decimal n) as Hdigits.
  assert (Hne : decimal n <> "") by (apply decimal_aux_not_empty; lia).
  pose proof (parse_digits_decimal n) as Hparse.
  pose proof (strip_digits_only _ Hdigits) as Hstrip.
  destruct (decimal n) as [|c s] eqn:Hdec; [congruence|].
  destruct Hdigits as [(d & Hd & ->) _].
  cbn [int].
  rewrite (int_of_str_unsigned _ d s Hd Hstrip). unfold literal.
  destruct (count_digits (String (digit_char d) s) <=? int_max_str_digits)%N;
    [now rewrite Hparse|reflexivity].
Qed.

(** [int] reads back the number from its decimal text: a counter sent
    as the text of an unsigned integer below [10 ^ 4300] is returned
    unchanged. *)
Lemma int_decimal n :
  (n < 10 ^ int_max_str_digits)%N -> int (PyStr (decimal n)) = Return (Z.of_N n).
Proof.
  intros Hn. rewrite int_decimal_literal.
  pose proof (count_digits_decimal_le n int_max_str_digits ltac:(reflexivity) Hn)
    as Hle.
  apply N.leb_le in Hle. now rewrite Hle.
Qed.

(** A number of more than 4300 digits is refused. *)
Lemma int_decimal_too_long n :
  (10 ^ int_max_str_digits <= n)%N -> int (PyStr (decimal n)) = Raise ValueError.
Proof.
  intros Hn. rewrite int_decimal_literal.
  pose proof (count_digits_decimal_gt n int_max_str_digits Hn) as Hgt.
  apply N.leb_gt in Hgt. now rewrite Hgt.
Qed.

(** Whenever [int] accepts the decimal text of a number, it returns
    that number. *)
Lemma int_decimal_inv n z : int (PyStr (decimal n)) = Return z -> z = Z.of_N n.
Proof.
  rewrite int_decimal_literal.
  destruct (count_digits (decimal n) <=? int_max_str_digits)%N;
    [now intros [= <-]|discriminate].
Qed.

(** Case analysis on the innermost test of the goal. *)
Ltac inner_case :=
  match goal with
  | |- context [match ?x with _ => _ end] =>
      lazymatch x with
      | context [match _ with _ => _ end] => fail
      | _ => destruct x eqn:?
      end
  end.

Ltac unfold_monad :=
  unfold try_except, try_finally, mbind, M_bind, mret, M_ret, lift, raise,
    print, emit, gets, modify in *.

(** World updates are brought to a record, traces to [trace w ++ evs]. *)
Ltac normalize_world :=
  cbv beta iota zeta delta
    [with_trace with_faults with_rows with_connection
     api_build api_execute db_faults talents snapshots pending now
     connection trace] in *;
  rewrite <- ?app_assoc; cbn [app].

(** ** [fetch_channel_stats] *)

(** The fetcher never raises and touches nothing but the trace. *)
Lemma fetch_channel_stats_returns youtube channel_id w :
  ∃ r evs,
    fetch_channel_stats youtube channel_id w
    = (Return r, with_trace w (trace w ++ evs))
    ∧ Forall of_fetch evs.
Proof.
  destruct w as [ab ae fs tl sn pe nw cn tr].
  unfold fetch_channel_stats, channels_list_execute, statistics_of, read_counter.
  unfold_monad. cbn.
  repeat (inner_case; cbn).
  all: normalize_world.
  all: eexists _, _; split; [reflexivity|].
  all: repeat constructor.
Qed.

(** A response from which the statistics can be read has a truthy
    [items] member. *)
Lemma statistics_of_items response st :
  statistics_of response = Return st ->
  ∃ items, get response "items" PyNone = Return items ∧ truthy items = true.
Proof.
  unfold statistics_of, getitem, get.
  destruct response as [| | | |l|d]; cbn; try discriminate.
  destruct (assoc "items" d) as [items|]; cbn; [|discriminate].
  intros H. exists items. split; [reflexivity|].
  destruct items as [| | |[|c s]|[|x l]|d']; cbn in *; try discriminate; reflexivity.
Qed.

Lemma read_counter_value d key n :
  counter_value d key n -> read_counter (PyDict d) key = Return n.
Proof.
  unfold counter_value, read_counter, get. cbn.
  destruct (assoc key d) as [v|]; cbn; [tauto|]. now intros ->.
Qed.

Lemma read_counter_inv d key n :
  read_counter (PyDict d) key = Return n -> counter_value d key n.
Proof.
  unfold counter_value, read_counter, get. cbn.
  destruct (assoc key d) as [v|]; cbn; [tauto|]. now intros [= <-].
Qed.

(** The fetcher on a response: what it returns is decided by the
    response alone. *)
Lemma fetch_channel_stats_response youtube channel_id w response :
  api_execute w channel_id = Return response ->
  fst (fetch_channel_stats youtube channel_id w)
  = Return
      (match get response "items" PyNone with
       | Return items =>
           if truthy items
           then match statistics_of response with
                | Return st =>
                    match read_counter st "subscriberCount",
                          read_counter st "viewCount",
                          read_counter st "videoCount" with
                    | Return subs, Return views, Return videos =>
                        Some {| subscriber_count := subs; view_count := views;
                                video_count := videos |}
                    | _, _, _ => None
                    end
                | Raise _ => None
                end
           else None
       | Raise _ => None
       end).
Proof.
  intros Hresp.
  unfold fetch_channel_stats, channels_list_execute.
  unfold_monad. cbn. rewrite Hresp.
  destruct (get response "items" PyNone) as [items|e]; cbn.
  - destruct (truthy items); cbn; [|reflexivity].
    destruct (statistics_of response) as [st|e]; cbn.
    + destruct (read_counter st "subscriberCount") as [subs|e]; cbn.
      * destruct (read_counter st "viewCount") as [views|e]; cbn.
        -- destruct (read_counter st "videoCount") as [videos|e]; cbn;
             [reflexivity|]. now destruct (is_HttpError e).
        -- now destruct (is_HttpError e).
      * now destruct (is_HttpError e).
    + now destruct (is_HttpError e).
  - now destruct (is_HttpError e).
Qed.

(** C4, as amended.  For every response of the statistics request whose
    matching resource carries a statistics object [d] in which each of
    the three counters that is present has an integer value ([int]
    converts it), the fetcher returns a record, and each of its three
    fields is the integer value of the corresponding member of [d] when
    the member is present and zero when it is absent. *)
Theorem fetch_channel_stats_counters youtube channel_id w response d subs views videos :
  api_execute w channel_id = Return response ->
  statistics_of response = Return (PyDict d) ->
  counter_value d "subscriberCount" subs ->
  counter_value d "viewCount" views ->
  counter_value d "videoCount" videos ->
  fst (fetch_channel_stats youtube channel_id w)
  = Return (Some {| subscriber_count := subs; view_count := views;
                    video_count := videos |}).
Proof.
  intros Hresp Hst Hsubs Hviews Hvideos.
  rewrite (fetch_channel_stats_response _ _ _ _ Hresp).
  destruct (statistics_of_items _ _ Hst) as (items & -> & ->).
  rewrite Hst.
  now rewrite (read_counter_value _ _ _ Hsubs), (read_counter_value _ _ _ Hviews),
    (read_counter_value _ _ _ Hvideos).
Qed.

Lemma fetch_channel_stats_raise youtube channel_id w e :
  api_execute w channel_id = Raise e ->
  fst (fetch_channel_stats youtube channel_id w) = Return None.
Proof.
  intros Hresp.
  unfold fetch_channel_stats, channels_list_execute.
  unfold_monad. cbn. rewrite Hresp. cbn.
  now destruct (is_HttpError e).
Qed.

(** What the fetcher returns depends on the world through the answer of
    the API only. *)
Lemma fetch_channel_stats_depends_on_api youtube channel_id w1 w2 :
  api_execute w1 channel_id = api_execute w2 channel_id ->
  fst (fetch_channel_stats youtube channel_id w1)
  = fst (fetch_channel_stats youtube channel_id w2).
Proof.
  intros Heq.
  destruct (api_execute w2 channel_id) as [response|e] eqn:H2.
  - now rewrite (fetch_channel_stats_response _ _ _ _ Heq),
      (fetch_channel_stats_response _ _ _ _ H2).
  - now rewrite (fetch_channel_stats_raise _ _ _ _ Heq),
      (fetch_channel_stats_raise _ _ _ _ H2).
Qed.

(** C7.  Whatever the request raises (an [HttpError] of any status for a
    rejected key or an exhausted quota, a transport or socket error, any
    other exception), and also when the response has no matching
    resource, the fetcher returns the one result [None]; it never raises,
    so its caller sees the same value for every kind of failure. *)
Theorem fetch_channel_stats_could_not_fetch youtube channel_id :
  (∀ w, ∃ r, fst (fetch_channel_stats youtube channel_id w) = Return r)
  ∧ (∀ w e, api_execute w channel_id = Raise e ->
       fst (fetch_channel_stats youtube channel_id w) = Return None)
  ∧ (∀ w response items,
       api_execute w channel_id = Return response ->
       get response "items" PyNone = Return items ->
       truthy items = false ->
       fst (fetch_channel_stats youtube channel_id w) = Return None).
Proof.
  split; [|split].
  - intros w. destruct (fetch_channel_stats_returns youtube channel_id w)
      as (r & evs & H & _). exists r. now rewrite H.
  - intros w e. apply fetch_channel_stats_raise.
  - intros w response items Hresp Hitems Hfalsy.
    rewrite (fetch_channel_stats_response _ _ _ _ Hresp), Hitems, Hfalsy.
    reflexivity.
Qed.

(** C9, as amended.  For every successful fetch the statistics object of
    the response could be read, each field of the record is the integer
    value of the corresponding member (zero when the member is absent),
    and the three fields are non-negative whenever the members that are
    present have non-negative values: the fetcher coerces and does not
    check the sign. *)
Theorem fetch_channel_stats_sign youtube channel_id w response r :
  api_execute w channel_id = Return response ->
  fst (fetch_channel_stats youtube channel_id w) = Return (Some r) ->
  ∃ d,
    statistics_of response = Return (PyDict d)
    ∧ counter_value d "subscriberCount" (subscriber_count r)
    ∧ counter_value d "viewCount" (view_count r)
    ∧ counter_value d "videoCount" (video_count r)
    ∧ ((∀ key v n,
          key ∈ counter_keys -> assoc key d = Some v -> int v = Return n -> 0 <= n) ->
       0 <= subscriber_count r ∧ 0 <= view_count r ∧ 0 <= video_count r).
Proof.
  intros Hresp.
  rewrite (fetch_channel_stats_response _ _ _ _ Hresp).
  destruct (get response "items" PyNone) as [items|]; [|discriminate].
  destruct (truthy items); [|discriminate].
  destruct (statistics_of response) as [st|]; [|discriminate].
  destruct (read_counter st "subscriberCount") as [subs|] eqn:Hsubs; [|discriminate].
  destruct (read_counter st "viewCount") as [views|] eqn:Hviews; [|discriminate].
  destruct (read_counter st "videoCount") as [videos|] eqn:Hvideos; [|discriminate].
  intros [= <-]. cbn.
  destruct st as [| | | | |d]; try discriminate.
  apply read_counter_inv in Hsubs, Hviews, Hvideos.
  exists d. repeat split; try assumption.
  - unfold counter_value in Hsubs.
    destruct (assoc "subscriberCount" d) as [v|] eqn:Hv; [|lia].
    apply (H "subscriberCount" v); [|assumption..]. unfold counter_keys. set_solver.
  - unfold counter_value in Hviews.
    destruct (assoc "viewCount" d) as [v|] eqn:Hv; [|lia].
    apply (H "viewCount" v); [|assumption..]. unfold counter_keys. set_solver.
  - unfold counter_value in Hvideos.
    destruct (assoc "videoCount" d) as [v|] eqn:Hv; [|lia].
    apply (H "videoCount" v); [|assumption..]. unfold counter_keys. set_solver.
Qed.

Lemma read_counter_decimal d key n :
  assoc key d = Some (PyStr (decimal n)) ->
  read_counter (PyDict d) key
  = if (n <? 10 ^ int_max_str_digits)%N then Return (Z.of_N n) else Raise ValueError.
Proof.
  intros Hkey. unfold read_counter, get. rewrite Hkey. cbn [obind].
  destruct (N.ltb_spec n (10 ^ int_max_str_digits));
    [now apply int_decimal|now apply int_decimal_too_long].
Qed.

(** X1.  A response whose three counters are the decimal texts of
    unsigned numbers, as the API sends them: the fetcher returns exactly
    these numbers when each is written with at most 4300 digits, the
    most [int] converts, and [None] when one of them is longer. *)
Lemma fetch_channel_stats_unsigned youtube channel_id w response d
    (subs views videos : N) :
  api_execute w channel_id = Return response ->
  statistics_of response = Return (PyDict d) ->
  assoc "subscriberCount" d = Some (PyStr (decimal subs)) ->
  assoc "viewCount" d = Some (PyStr (decimal views)) ->
  assoc "videoCount" d = Some (PyStr (decimal videos)) ->
  fst (fetch_channel_stats youtube channel_id w)
  = Return
      (if ((subs <? 10 ^ int_max_str_digits) && (views <? 10 ^ int_max_str_digits)
           && (videos <? 10 ^ int_max_str_digits))%N
       then Some {| subscriber_count := Z.of_N subs; view_count := Z.of_N views;
                    video_count := Z.of_N videos |}
       else None).
Proof.
  intros Hresp Hst Hsubs Hviews Hvideos.
  rewrite (fetch_channel_stats_response _ _ _ _ Hresp).
  destruct (statistics_of_items _ _ Hst) as (items & -> & ->). rewrite Hst.
  rewrite (read_counter_decimal _ _ _ Hsubs), (read_counter_decimal _ _ _ Hviews),
    (read_counter_decimal _ _ _ Hvideos).
  destruct (subs <? 10 ^ int_max_str_digits)%N,
    (views <? 10 ^ int_max_str_digits)%N,
    (videos <? 10 ^ int_max_str_digits)%N; reflexivity.
Qed.

(** X2.  A matching resource one of whose counters is present without
    an integer value makes the fetch fail: the fetcher returns [None]. *)
Lemma fetch_channel_stats_not_a_number youtube channel_id w response d key v e :
  api_execute w channel_id = Return response ->
  statistics_of response = Return (PyDict d) ->
  key ∈ counter_keys ->
  assoc key d = Some v ->
  int v = Raise e ->
  fst (fetch_channel_stats youtube channel_id w) = Return None.
Proof.
  intros Hresp Hst Hkey Hv He.
  rewrite (fetch_channel_stats_response _ _ _ _ Hresp).
  destruct (statistics_of_items _ _ Hst) as (items & -> & ->). rewrite Hst.
  assert (Hread : read_counter (PyDict d) key = Raise e).
  { unfold read_counter, get. cbn. now rewrite Hv. }
  unfold counter_keys in Hkey.
  repeat (apply elem_of_cons in Hkey; destruct Hkey as [->|Hkey];
          [rewrite Hread; repeat inner_case; reflexivity|]).
  now apply elem_of_nil in Hkey.
Qed.

(** ** [get_talent_id] and [save_snapshot] *)

Lemma head_filter_resolved (l : list Talents.row) channel tid :
  List.head (List.map Talents.id
               (List.filter (fun r => String.eqb (Talents.youtube_id r) channel) l))
  = Some tid ->
  ∃ t, t ∈ l ∧ Talents.id t = tid ∧ Talents.youtube_id t = channel.
Proof.
  induction l as [|t l IH]; cbn; [discriminate|].
  destruct (String.eqb_spec (Talents.youtube_id t) channel) as [Heq|Hne]; cbn.
  - intros [= <-]. exists t. split; [left|]. auto.
  - intros H. destruct (IH H) as (t' & Hin & Hid & Hch).
    exists t'. split; [right|]; auto.
Qed.

(** The resolver changes the trace and uses up planned outcomes; what it
    raises is never an instance of [psycopg2.Error], and what it returns
    is the identifier of a talent row of the channel. *)
Lemma get_talent_id_cases conn channel_id w :
  ∃ r evs fs,
    get_talent_id conn channel_id w
    = (r, with_faults (with_trace w (trace w ++ evs)) fs)
    ∧ Forall of_lookup evs
    ∧ (∀ e, r = Raise e -> is_psycopg2_Error e = false)
    ∧ (∀ tid, r = Return (Some tid) -> resolved w channel_id tid).
Proof.
  destruct w as [ab ae fs tl sn pe nw cn tr].
  unfold get_talent_id, conn_cursor, execute_select, fetchone, cursor_close,
    fallible.
  unfold_monad. cbn.
  repeat (inner_case; cbn).
  all: try discriminate.
  all: normalize_world.
  all: eexists _, _, _; split; [reflexivity|].
  all: split; [repeat constructor|].
  all: split; [intros ? [= <-]; try assumption | intros ? [= <-]].
  all: try discriminate.
  all: apply head_filter_resolved; assumption.
Qed.

Ltac rolled_back evs :=
  eexists _, evs, _; (split; [eassumption|]); (split; [|reflexivity]);
  repeat constructor.

Ltac rollback_raised evs :=
  eexists _, _, evs, _, _; (split; [eassumption|]); (split; [|reflexivity]);
  repeat constructor.

(** The writer: it returns [True] after one insert and a commit; when a
    call raised a [psycopg2.Error] it rolls back, and returns [False]
    when the rollback went through or raises what the rollback raised;
    it lets any other exception through. *)
Lemma save_snapshot_cases conn tid s w :
  (∃ fs,
     save_snapshot conn tid s w
     = (Return true,
        with_rows
          (with_faults
             (with_trace w (trace w ++ [DbCursor; DbInsert tid s; DbCommit; DbCursorClose]))
             fs)
          (snapshots w ++ pending w ++ [snapshot_row tid s (now w)]) []))
  ∨ (∃ e evs fs,
       is_psycopg2_Error e = true ∧ Forall of_save evs
       ∧ save_snapshot conn tid s w
         = (Return false,
            with_rows
              (with_faults
                 (with_trace w (trace w ++ evs ++ [Print (DbErrorSaving e); DbRollback]))
                 fs)
              (snapshots w) []))
  ∨ (∃ e evs fs rows,
       is_psycopg2_Error e = false ∧ Forall of_save evs
       ∧ save_snapshot conn tid s w
         = (Raise e,
            with_rows (with_faults (with_trace w (trace w ++ evs)) fs)
              (snapshots w) rows))
  ∨ (∃ e e' evs fs rows,
       is_psycopg2_Error e = true ∧ Forall of_save evs
       ∧ save_snapshot conn tid s w
         = (Raise e',
            with_rows
              (with_faults
                 (with_trace w (trace w ++ evs ++ [Print (DbErrorSaving e); DbRollback]))
                 fs)
              (snapshots w) rows)).
Proof.
  destruct w as [ab ae fs tl sn pe nw cn tr], s as [subs views videos].
  unfold save_snapshot, conn_cursor, execute_insert, conn_commit, conn_rollback,
    cursor_close, fallible, snapshot_row.
  unfold_monad. cbn.
  repeat (inner_case; cbn).
  all: try discriminate.
  all: normalize_world.
  all: first
    [ left; eexists; reflexivity
    | right; left; rolled_back (@nil event)
    | right; left; rolled_back [DbCursor]
    | right; left; rolled_back [DbCursor; DbInsert tid (Build_stats subs views videos)]
    | right; left;
      rolled_back [DbCursor; DbInsert tid (Build_stats subs views videos); DbCommit]
    | right; right; left; eexists _, _, _, _; (split; [eassumption|]);
      (split; [|reflexivity]); repeat constructor
    | right; right; right; rollback_raised (@nil event)
    | right; right; right; rollback_raised [DbCursor]
    | right; right; right;
      rollback_raised [DbCursor; DbInsert tid (Build_stats subs views videos)]
    | right; right; right;
      rollback_raised
        [DbCursor; DbInsert tid (Build_stats subs views videos); DbCommit] ].
Qed.

(** C8.  When the three calls of the lookup go through and no talent
    row has the channel identifier, the resolver returns [None]; when one
    of the calls raises an instance of [psycopg2.Error], it returns
    [None] as well; and whatever it raises is not an instance of
    [psycopg2.Error]: no database exception reaches its caller. *)
Theorem get_talent_id_not_found conn channel_id w :
  (first_fault 3 (db_faults w) = None ->
   List.filter (fun r => String.eqb (Talents.youtube_id r) channel_id) (talents w) = [] ->
   fst (get_talent_id conn channel_id w) = Return None)
  ∧ (∀ e, first_fault 3 (db_faults w) = Some e -> is_psycopg2_Error e = true ->
       fst (get_talent_id conn channel_id w) = Return None)
  ∧ (∀ e, fst (get_talent_id conn channel_id w) = Raise e ->
       is_psycopg2_Error e = false).
Proof.
  split; [|split].
  - destruct w as [ab ae fs tl sn pe nw cn tr]. cbn [db_faults talents].
    intros Hfs Hrows.
    unfold get_talent_id, conn_cursor, execute_select, fetchone, cursor_close,
      fallible.
    unfold_monad. cbn.
    destruct fs as [|[e|] [|[e'|] [|[e''|] fs]]]; cbn in *;
      try discriminate; rewrite Hrows; reflexivity.
  - destruct w as [ab ae fs tl sn pe nw cn tr]. cbn [db_faults].
    intros e Hfs Hpg.
    unfold get_talent_id, conn_cursor, execute_select, fetchone, cursor_close,
      fallible.
    unfold_monad. cbn.
    destruct fs as [|[e1|] [|[e2|] [|[e3|] fs]]]; cbn in *;
      try discriminate; injection Hfs as ->; rewrite Hpg; reflexivity.
  - intros e He.
    destruct (get_talent_id_cases conn channel_id w) as (r & evs & fs & H & _ & Hr & _).
    rewrite H in He. cbn in He. now apply Hr.
Qed.

Ltac rolled_back_at evs :=
  exists evs; split; [reflexivity|]; cbn; repeat split; repeat constructor.

(** X23.  When one of the three calls of the writer raises an instance
    of [psycopg2.Error], the writer reports it and calls
    [conn.rollback()].  When the rollback goes through, the writer
    returns [False] and no row is left in the transaction; when the
    rollback raises, the writer raises that exception.  Either way table
    [snapshots] is as it was. *)
Lemma save_snapshot_rolls_back conn tid s w e :
  first_fault 3 (db_faults w) = Some e ->
  is_psycopg2_Error e = true ->
  ∃ w' evs,
    save_snapshot conn tid s w
    = (match after_fault (db_faults w) with
       | None => Return false
       | Some e' => Raise e'
       end, w')
    ∧ trace w' = (trace w ++ evs ++ [Print (DbErrorSaving e); DbRollback])%list
    ∧ Forall of_save evs
    ∧ snapshots w' = snapshots w
    ∧ (after_fault (db_faults w) = None -> pending w' = []).
Proof.
  destruct w as [ab ae fs tl sn pe nw cn tr], s as [subs views videos].
  cbn [db_faults]. intros Hfs Hpg.
  unfold save_snapshot, conn_cursor, execute_insert, conn_commit, conn_rollback,
    cursor_close, fallible.
  unfold_monad. cbn.
  destruct fs as [|[e1|] [|[e2|] [|[e3|] fs]]]; cbn in *;
    try discriminate; injection Hfs as ->; rewrite Hpg; cbn.
  all: try match goal with
           | |- context [match ?l with [] => _ | _ :: _ => _ end] =>
               destruct l as [|[e'|] ?]
           end; cbn.
  all: eexists; normalize_world.
  all: first
    [ solve [rolled_back_at [DbCursor]; discriminate]
    | solve [rolled_back_at [DbCursor; DbInsert tid (Build_stats subs views videos)];
             discriminate]
    | solve [rolled_back_at
               [DbCursor; DbInsert tid (Build_stats subs views videos); DbCommit];
             discriminate] ].
Qed.

(** X3.  When its three calls go through, the writer returns [True] and
    the transaction is committed: the new row is in [snapshots], after
    the rows that were there, and nothing is left pending. *)
Lemma save_snapshot_commits conn tid s w :
  first_fault 3 (db_faults w) = None ->
  ∃ w',
    save_snapshot conn tid s w = (Return true, w')
    ∧ snapshots w' = (snapshots w ++ pending w ++ [snapshot_row tid s (now w)])%list
    ∧ pending w' = [].
Proof.
  destruct w as [ab ae fs tl sn pe nw cn tr], s as [subs views videos].
  cbn [db_faults]. intros Hfs.
  unfold save_snapshot, conn_cursor, execute_insert, conn_commit, conn_rollback,
    cursor_close, fallible.
  unfold_monad. cbn.
  destruct fs as [|[e1|] [|[e2|] [|[e3|] fs]]]; cbn in *;
    try discriminate; eexists; repeat split.
Qed.

(** ** [main] *)

Local Opaque fetch_channel_stats get_talent_id save_snapshot.

(** One step of [main] on a world given as a record. *)
Ltac run_main :=
  cbv beta iota zeta delta
    [main build psycopg2_connect fallible conn_is_None local_conn conn_close
     try_except try_finally mbind M_bind mret M_ret lift raise print emit gets modify
     with_trace with_faults with_rows with_connection
     api_build api_execute db_faults talents snapshots pending now connection trace
     List.find fst snd is_Exception not_talent_id exit_code final events].

Ltac call_fetch :=
  match goal with
  | |- context [fetch_channel_stats ?y ?c ?w] =>
      let r := fresh "r" in
      let fevs := fresh "fevs" in
      let Hfevs := fresh "Hfevs" in
      let Hf := fresh "Hf" in
      let Hr := fresh "Hr" in
      destruct (fetch_channel_stats_returns y c w) as (r & fevs & Hf & Hfevs);
      match goal with
      | Hdep : ∀ w', _ -> fst (fetch_channel_stats y c w') = _ |- _ =>
          pose proof (Hdep w eq_refl) as Hr; rewrite Hf in Hr; cbn [fst] in Hr;
          symmetry in Hr; clear Hdep
      end;
      rewrite Hf; clear Hf
  end.

Ltac call_lookup :=
  match goal with
  | |- context [get_talent_id ?conn ?c ?w] =>
      let r := fresh "r" in
      let levs := fresh "levs" in
      let fs := fresh "fs" in
      let Hlevs := fresh "Hlevs" in
      let Hraise := fresh "Hraise" in
      let Hres := fresh "Hres" in
      destruct (get_talent_id_cases conn c w)
        as (r & levs & fs & -> & Hlevs & Hraise & Hres)
  end.

Ltac call_save :=
  match goal with
  | |- context [save_snapshot ?conn ?tid ?s ?w] =>
      let e := fresh "e" in
      let sevs := fresh "sevs" in
      let fs := fresh "fs" in
      let rows := fresh "rows" in
      let Hpg := fresh "Hpg" in
      let Hsevs := fresh "Hsevs" in
      let e' := fresh "e'" in
      destruct (save_snapshot_cases conn tid s w)
        as [(fs & ->) | [(e & sevs & fs & Hpg & Hsevs & ->)
                        | [(e & sevs & fs & rows & Hpg & Hsevs & ->)
                          | (e & e' & sevs & fs & rows & Hpg & Hsevs & ->)]]]
  end.

Ltac same_events :=
  cbv beta iota zeta delta
    [path_events started fetched connecting looked_up saving closing];
  unfold handler_message;
  repeat match goal with H : is_psycopg2_Error _ = _ |- _ => rewrite H end;
  rewrite <- ?app_assoc; cbn [app];
  rewrite ?drop_app_length; reflexivity.

Ltac path_found p :=
  exists p;
  split;
    [solve [cbn -[fetch_result]; unfold fetch_result; repeat split;
            first [ assumption | reflexivity
                  | match goal with
                    | H : ∀ t, _ = _ -> resolved _ _ t |- _ => exact (H _ eq_refl)
                    | H : ∀ e, _ = _ -> is_psycopg2_Error e = false |- _ =>
                        exact (H _ eq_refl)
                    end ]]|];
  split; [reflexivity|];
  split; [same_events|];
  split; [cbn; rewrite ?app_nil_r; reflexivity|];
  split; [reflexivity|];
  cbn; intros; first [reflexivity | discriminate].

Lemma main_path cfg w :
  ∃ p,
    path_ok cfg w p
    ∧ exit_code cfg w = Return (path_code p)
    ∧ events cfg w = path_events cfg p
    ∧ snapshots (final cfg w) = (snapshots w ++ path_rows (now w) p)%list
    ∧ talents (final cfg w) = talents w
    ∧ (path_connected p = true -> pending (final cfg w) = []).
Proof.
  destruct w as [ab ae fs tl sn pe nw cn tr].
  run_main.
  destruct ab as [e|].
  { destruct (is_psycopg2_Error e) eqn:He; run_main; path_found (BuildRaised e). }
  pose proof
    (fun w' H =>
       fetch_channel_stats_depends_on_api
         (YouTube (YOUTUBE_API_KEY cfg)) (YUURA_CHANNEL_ID cfg) w'
         {| api_build := None; api_execute := ae; db_faults := fs; talents := tl;
            snapshots := sn; pending := pe; now := nw; connection := cn;
            trace := tr |} H) as Hdep.
  cbn [api_execute] in Hdep.
  call_fetch. run_main.
  destruct r as [s|]; run_main; [|path_found (FetchNone fevs)].
  destruct fs as [|[e|] fs]; run_main;
    [|destruct (is_psycopg2_Error e) eqn:He; run_main;
      path_found (ConnectRaised fevs s e)|].
  all: call_lookup; run_main.
  all: destruct r as [[tid|]|e]; run_main.
  all: try solve [path_found (LookupNone fevs s levs)].
  all: try solve [rewrite (Hraise e eq_refl); run_main;
                  path_found (LookupRaised fevs s levs e)].
  all: destruct (String.eqb tid "") eqn:Htid; run_main;
    [path_found (LookupNone fevs s levs)|].
  all: call_save; run_main.
  all: try solve [path_found (Saved fevs s levs tid)].
  all: try solve [path_found (SaveFalse fevs s levs tid sevs e)].
  all: try solve [rewrite Hpg; run_main;
                  path_found (SaveRaised fevs s levs tid sevs e)].
  all: match goal with
       | |- context [is_psycopg2_Error ?x] =>
           destruct (is_psycopg2_Error x) eqn:?; run_main;
           path_found (RollbackRaised fevs s levs tid sevs e x)
       end.
Qed.

Local Transparent fetch_channel_stats get_talent_id save_snapshot.

(** ** The calls of each function, exactly *)

Lemma fetch_channel_stats_exact youtube channel_id w :
  ∃ r evs,
    fetch_channel_stats youtube channel_id w
    = (Return r, with_trace w (trace w ++ evs))
    ∧ fetch_run channel_id r evs.
Proof.
  destruct w as [ab ae fs tl sn pe nw cn tr].
  unfold fetch_channel_stats, channels_list_execute, statistics_of, read_counter.
  unfold_monad. cbn.
  repeat (inner_case; cbn).
  all: normalize_world.
  all: eexists _, _; split; [reflexivity|].
  all: first [ apply fetch_ok | apply fetch_no_channel
             | apply fetch_api_error; assumption
             | apply fetch_unexpected; assumption ].
Qed.

Ltac made_calls tac :=
  first [ solve [tac 3%nat] | solve [tac 2%nat] | solve [tac 1%nat]
        | solve [tac 4%nat] ].

Lemma get_talent_id_exact conn channel_id w :
  ∃ r k evs,
    get_talent_id conn channel_id w
    = (r, with_faults (with_trace w (trace w ++ evs)) (drop k (db_faults w)))
    ∧ lookup_run channel_id r k evs.
Proof.
  destruct w as [ab ae fs tl sn pe nw cn tr].
  unfold get_talent_id, conn_cursor, execute_select, fetchone, cursor_close,
    fallible.
  unfold_monad. cbn.
  repeat (inner_case; cbn).
  all: try discriminate.
  all: normalize_world.
  all: let tac k :=
         (eexists _, k, _; split; [reflexivity|];
          first [ apply lookup_found | apply lookup_none
                | apply (lookup_db_error _ k); [lia|assumption]
                | apply (lookup_raised _ k); [lia|assumption] ]) in
       made_calls tac.
Qed.

Lemma save_snapshot_exact conn tid s w :
  ∃ r k evs rows open,
    save_snapshot conn tid s w
    = (r, with_rows
            (with_faults (with_trace w (trace w ++ evs)) (drop k (db_faults w)))
            rows open)
    ∧ save_run tid s r k evs
    ∧ (r = Return true ->
       rows = (snapshots w ++ pending w ++ [snapshot_row tid s (now w)])%list
       ∧ open = [])
    ∧ (r <> Return true -> rows = snapshots w)
    ∧ (r = Return false -> open = []).
Proof.
  destruct w as [ab ae fs tl sn pe nw cn tr], s as [subs views videos].
  unfold save_snapshot, conn_cursor, execute_insert, conn_commit, conn_rollback,
    cursor_close, fallible, snapshot_row.
  unfold_monad. cbn.
  repeat (inner_case; cbn).
  all: try discriminate.
  all: normalize_world.
  all: let tac k :=
         (eexists _, k, _, _, _; split; [reflexivity|];
          split;
            [first [ apply save_ok
                   | apply (save_db_error _ _ (Nat.pred k)); [cbn; lia|assumption]
                   | apply (save_rollback_raised _ _ (Nat.pred k));
                     [cbn; lia|assumption]
                   | apply (save_raised _ _ k); [lia|assumption] ]|];
          split; [intros; first [discriminate | split; reflexivity]|];
          split; [intros; first [congruence | reflexivity]|];
          intros; first [discriminate | reflexivity]) in
       made_calls tac.
Qed.

(** ** [main]: the calls of a run *)

Local Opaque fetch_channel_stats get_talent_id save_snapshot.

Ltac call_fetch_exact :=
  match goal with
  | |- context [fetch_channel_stats ?y ?c ?w] =>
      let r := fresh "r" in
      let fevs := fresh "fevs" in
      let Hfetch := fresh "Hfetch" in
      destruct (fetch_channel_stats_exact y c w) as (r & fevs & -> & Hfetch)
  end.

Ltac call_lookup_exact :=
  match goal with
  | |- context [get_talent_id ?conn ?c ?w] =>
      let r := fresh "r" in
      let kl := fresh "kl" in
      let levs := fresh "levs" in
      let Hlookup := fresh "Hlookup" in
      destruct (get_talent_id_exact conn c w) as (r & kl & levs & -> & Hlookup)
  end.

Ltac call_save_exact :=
  match goal with
  | |- context [save_snapshot ?conn ?tid ?s ?w] =>
      let r := fresh "r" in
      let ks := fresh "ks" in
      let sevs := fresh "sevs" in
      let rows := fresh "rows" in
      let open := fresh "open" in
      let Hsave := fresh "Hsave" in
      let Htrue := fresh "Htrue" in
      let Hother := fresh "Hother" in
      let Hfalse := fresh "Hfalse" in
      destruct (save_snapshot_exact conn tid s w)
        as (r & ks & sevs & rows & open & -> & Hsave & Htrue & Hother & Hfalse)
  end.

Ltac frame_found :=
  cbn [db_faults]; rewrite ?drop_drop, ?drop_nil;
  first [ exists 0%nat; reflexivity | exists 1%nat; reflexivity
        | eexists (S _); cbn [drop]; reflexivity ].

Ltac exact_calls :=
  cbn [path_exact];
  repeat match goal with
         | |- True => exact I
         | |- ∃ k, (1 <= k <= 3)%nat ∧ _ = take k _ =>
             eexists; (split; [|reflexivity]); assumption
         | |- _ ∧ _ => split
         | |- ∃ _, _ => eexists
         | |- fetch_run _ _ _ => eassumption
         | |- lookup_run _ _ _ _ => eassumption
         | |- save_run _ _ _ _ _ => eassumption
         | |- not_talent_id _ = true => first [reflexivity | cbn; assumption]
         end.

Ltac exact_path p :=
  exists p;
  split; [solve [exact_calls]|];
  split; [reflexivity|];
  split; [same_events|];
  split; [reflexivity|];
  split; [reflexivity|];
  split; [reflexivity|];
  split; [reflexivity|];
  frame_found.

Lemma main_path_exact cfg w :
  ∃ p,
    path_exact cfg p
    ∧ exit_code cfg w = Return (path_code p)
    ∧ events cfg w = path_events cfg p
    ∧ connection (final cfg w)
      = (if path_connected p then Some Closed else None)
    ∧ api_build (final cfg w) = api_build w
    ∧ api_execute (final cfg w) = api_execute w
    ∧ now (final cfg w) = now w
    ∧ ∃ k, db_faults (final cfg w) = drop k (db_faults w).
Proof.
  destruct w as [ab ae fs tl sn pe nw cn tr].
  run_main.
  destruct ab as [e|].
  { destruct (is_psycopg2_Error e) eqn:He; run_main; exact_path (BuildRaised e). }
  call_fetch_exact. run_main.
  destruct r as [s|]; run_main; [|exact_path (FetchNone fevs)].
  destruct fs as [|[e|] fs]; run_main;
    [|destruct (is_psycopg2_Error e) eqn:He; run_main;
      exact_path (ConnectRaised fevs s e)|].
  all: call_lookup_exact; run_main.
  all: destruct r as [[tid|]|e]; run_main.
  all: try solve [exact_path (LookupNone fevs s levs)].
  all: try solve [assert (Hpg : is_psycopg2_Error e = false)
                    by (inversion Hlookup; assumption);
                  rewrite Hpg; run_main; exact_path (LookupRaised fevs s levs e)].
  all: assert (kl = 3%nat) as -> by (inversion Hlookup; reflexivity).
  all: destruct (String.eqb tid "") eqn:Htid; run_main;
    [exact_path (LookupNone fevs s levs)|].
  all: call_save_exact; run_main.
  all: destruct r as [[|]|e]; run_main.
  all: try solve [inversion Hsave; subst; exact_path (Saved fevs s levs tid)].
  all: try solve [inversion Hsave; subst;
                  match goal with
                  | |- context [app (take ?k (save_calls ?t ?c))
                                  [Print (DbErrorSaving ?x); DbRollback]] =>
                      exact_path (SaveFalse fevs c levs t (take k (save_calls t c)) x)
                  end].
  all: inversion Hsave; subst.
  all: try solve [match goal with
                  | Hpg : is_psycopg2_Error ?x = false
                    |- context [is_psycopg2_Error ?x] =>
                      rewrite Hpg; run_main;
                      match goal with
                      | |- context [take ?k (save_calls ?t ?c)] =>
                          exact_path
                            (SaveRaised fevs c levs t (take k (save_calls t c)) x)
                      end
                  end].
  all: match goal with
       | |- context [is_psycopg2_Error ?y] =>
           destruct (is_psycopg2_Error y) eqn:?; run_main;
           match goal with
           | |- context [app (take ?k (save_calls ?t ?c))
                           [Print (DbErrorSaving ?x); DbRollback]] =>
               exact_path
                 (RollbackRaised fevs c levs t (take k (save_calls t c)) x y)
           end
       end.
Qed.

Local Transparent fetch_channel_stats get_talent_id save_snapshot.

(** ** A run in which every call goes through *)

Local Opaque fetch_channel_stats.

Ltac run_all :=
  cbv beta iota zeta delta
    [main build psycopg2_connect fallible conn_is_None local_conn conn_close
     get_talent_id save_snapshot conn_cursor execute_select fetchone cursor_close
     execute_insert conn_commit conn_rollback
     try_except try_finally mbind M_bind mret M_ret lift raise print emit gets modify
     with_trace with_faults with_rows with_connection
     api_build api_execute db_faults talents snapshots pending now connection trace
     subscriber_count view_count video_count
     List.find fst snd is_Exception not_talent_id exit_code final events
     snapshot_row].

(** The fetcher in [main]: what it returns is decided by the API, and
    it adds the request and at most one diagnostic. *)
Ltac call_fetch_run :=
  match goal with
  | |- context [fetch_channel_stats ?y ?c ?w] =>
      let r := fresh "r" in
      let fevs := fresh "fevs" in
      let Hrun := fresh "Hrun" in
      let Hf := fresh "Hf" in
      let Hr := fresh "Hr" in
      destruct (fetch_channel_stats_exact y c w) as (r & fevs & Hf & Hrun);
      match goal with
      | Hdep : ∀ w', _ -> fst (fetch_channel_stats y c w') = _ |- _ =>
          pose proof (Hdep w eq_refl) as Hr; rewrite Hf in Hr; cbn [fst] in Hr;
          symmetry in Hr; clear Hdep
      end;
      rewrite Hf; clear Hf
  end.

(** When every step goes through, [main] returns 0, the run is the
    complete one, and one row has been added to [snapshots]. *)
Lemma main_saves cfg w s tid :
  completes cfg w s tid ->
  exit_code cfg w = Return 0
  ∧ snapshots (final cfg w) = (snapshots w ++ [snapshot_row tid s (now w)])%list
  ∧ events cfg w = complete_run cfg s tid.
Proof.
  unfold completes.
  destruct w as [ab ae fs tl sn pe nw cn tr], s as [subs views videos].
  cbn [api_build db_faults talents snapshots now]. unfold fetch_result.
  intros (-> & Hfetch & Hfs & Hhead & Htid).
  pose proof
    (fun w' H =>
       fetch_channel_stats_depends_on_api
         (YouTube (YOUTUBE_API_KEY cfg)) (YUURA_CHANNEL_ID cfg) w'
         {| api_build := None; api_execute := ae; db_faults := fs; talents := tl;
            snapshots := sn; pending := pe; now := nw; connection := cn;
            trace := tr |} H) as Hdep.
  cbn [api_execute] in Hdep.
  apply String.eqb_neq in Htid.
  destruct fs as [|[?|] [|[?|] [|[?|] [|[?|] [|[?|] [|[?|] [|[?|] fs]]]]]]];
    cbn in Hfs; try discriminate Hfs.
  all: run_main; call_fetch_run; rewrite Hfetch in Hr; injection Hr as <-.
  all: inversion Hrun; subst.
  all: run_all; rewrite Hhead; run_all.
  all: destruct (String.eqb tid ""); [discriminate Htid|]; run_all.
  all: split; [reflexivity|]; split; [reflexivity|].
  all: unfold complete_run; rewrite <- ?app_assoc; cbn [app].
  all: rewrite drop_app_length; reflexivity.
Qed.

(** One step of a run whose result is not known yet: the next planned
    outcome, the class of the exception, the row found. *)
Ltac next_case :=
  run_all;
  first
    [ solve [let H := fresh in intros H; discriminate H]
    | match goal with
      | |- context [match ?l with [] => _ | _ :: _ => _ end] =>
          is_var l; destruct l as [|[?|] ?]
      | |- context [is_psycopg2_Error ?e] => destruct (is_psycopg2_Error e)
      | |- context [match List.head ?rows with Some _ => _ | None => _ end] =>
          destruct (List.head rows) eqn:?
      | |- context [String.eqb ?tid ""] => destruct (String.eqb tid "") eqn:?
      end ].

(** A run that returns 0 went through every step. *)
Lemma main_zero_inv cfg w :
  exit_code cfg w = Return 0 -> ∃ s tid, completes cfg w s tid.
Proof.
  destruct w as [ab ae fs tl sn pe nw cn tr].
  pose proof
    (fun w' H =>
       fetch_channel_stats_depends_on_api
         (YouTube (YOUTUBE_API_KEY cfg)) (YUURA_CHANNEL_ID cfg) w'
         {| api_build := ab; api_execute := ae; db_faults := fs; talents := tl;
            snapshots := sn; pending := pe; now := nw; connection := cn;
            trace := tr |} H) as Hdep.
  cbn [api_execute] in Hdep.
  enough (Hsteps :
            exit_code cfg
              {| api_build := ab; api_execute := ae; db_faults := fs;
                 talents := tl; snapshots := sn; pending := pe; now := nw;
                 connection := cn; trace := tr |}
            = Return 0 ->
            ab = None
            ∧ (∃ s, fst (fetch_channel_stats (YouTube (YOUTUBE_API_KEY cfg))
                           (YUURA_CHANNEL_ID cfg)
                           {| api_build := ab; api_execute := ae; db_faults := fs;
                              talents := tl; snapshots := sn; pending := pe;
                              now := nw; connection := cn; trace := tr |})
                    = Return (Some s))
            ∧ first_fault 7 fs = None
            ∧ ∃ tid,
                List.head
                  (List.map Talents.id
                     (List.filter
                        (fun r => String.eqb (Talents.youtube_id r)
                                    (YUURA_CHANNEL_ID cfg)) tl))
                = Some tid
                ∧ String.eqb tid "" = false).
  { intros Hzero. destruct (Hsteps Hzero) as (Hb & (s & Hs) & Hf & tid & Hh & Ht).
    exists s, tid. unfold completes, fetch_result.
    apply String.eqb_neq in Ht. auto. }
  generalize dependent
    (fst (fetch_channel_stats (YouTube (YOUTUBE_API_KEY cfg)) (YUURA_CHANNEL_ID cfg)
            {| api_build := ab; api_execute := ae; db_faults := fs; talents := tl;
               snapshots := sn; pending := pe; now := nw; connection := cn;
               trace := tr |})).
  intros fetched Hdep.
  run_main. destruct ab as [e|];
    [destruct (is_psycopg2_Error e); run_main; intros H; discriminate H|].
  call_fetch. subst fetched. run_main.
  destruct r as [s|]; run_main; [|intros H; discriminate H].
  repeat next_case.
  all: intros _; split; [reflexivity|]; split; [eexists; reflexivity|].
  all: split; [reflexivity|]; eexists; split; [reflexivity|assumption].
Qed.

Local Transparent fetch_channel_stats.

(** ** Events of a run *)

Lemma not_in_classified (f : event -> bool) (evs : list event) (ev : event) :
  Forall f evs -> f ev = false -> ev ∉ evs.
Proof.
  intros HF Hf Hin. rewrite Forall_forall in HF.
  specialize (HF _ Hin). now rewrite Hf in HF.
Qed.

Ltac unfold_events :=
  cbv beta iota zeta delta
    [path_events started fetched connecting looked_up saving closing stages] in *.

Ltac absurd_event :=
  match goal with
  | H : ?ev ∈ ?l, HF : Forall (fun x => Is_true (@?f x)) ?l |- _ =>
      exact (False_ind _ (not_in_classified f l ev HF eq_refl H))
  end.

(** All the ways an event can be in the events of a path. *)
Ltac split_events H :=
  unfold_events;
  repeat first [rewrite elem_of_app in H | rewrite elem_of_cons in H];
  rewrite ?elem_of_nil in H;
  repeat match goal with
         | H' : _ ∨ _ |- _ => destruct H' as [H'|H']
         | H' : False |- _ => destruct H'
         end;
  try discriminate; try absurd_event;
  try match goal with
      | Hx : _ = Print (handler_message ?e) |- _ =>
          unfold handler_message in Hx; destruct (is_psycopg2_Error e); discriminate
      end.

Ltac event_here :=
  unfold_events;
  repeat first [rewrite elem_of_app | rewrite elem_of_cons];
  auto 40.

Lemma elem_sublist (x : event) (l : list event) : x ∈ l -> sublist [x] l.
Proof.
  induction 1 as [x l|x y l _ IH].
  - apply sublist_skip, sublist_nil_l.
  - now apply sublist_cons.
Qed.

Ltac in_order :=
  unfold_events; rewrite <- ?app_assoc; cbn [app];
  repeat match goal with
         | |- sublist [] _ => apply sublist_nil_l
         | H : ?x ∈ ?l |- sublist [?x] (app ?l _) =>
             apply sublist_inserts_r, elem_sublist, H
         | |- sublist _ (app _ _) => apply sublist_inserts_l
         | |- sublist (_ :: _) (_ :: _) =>
             first [apply sublist_skip | apply sublist_cons]
         end.

(** The exit status of the process is what [main] returns, or 1 when
    the configuration could not be imported. *)
Lemma script_exit_code environ dotenv w :
  (fst (script environ dotenv w) = 0 ∨ fst (script environ dotenv w) = 1)
  ∧ (fst (script environ dotenv w) = 0 ↔
       ∃ cfg, import_config (load_dotenv environ dotenv) = Return cfg
              ∧ exit_code cfg w = Return 0).
Proof.
  unfold script.
  destruct (import_config (load_dotenv environ dotenv)) as [cfg|e].
  - destruct (main_path cfg w) as (p & _ & Hcode & _).
    unfold exit_code in *. destruct (main cfg w) as [r w'] eqn:Hmain.
    cbn [fst] in Hcode. subst r. cbn [fst].
    split; [destruct p; cbn; auto|]. split.
    + intros Hzero. exists cfg. split; [reflexivity|].
      rewrite Hmain. cbn [fst]. now f_equal.
    + intros (cfg' & [= <-] & Hzero). rewrite Hmain in Hzero.
      now injection Hzero.
  - cbn. split; [auto|]. split; [discriminate|]. now intros (? & [=] & _).
Qed.

(** What [main] returns and what it reports: 0 with the line of the
    saved snapshot, after the lines of the earlier stages; 1 with one of
    the lines that report a failure. *)
Lemma main_reports cfg w :
  (exit_code cfg w = Return 0 ∨ exit_code cfg w = Return 1)
  ∧ (exit_code cfg w = Return 0 ↔ Print SnapshotSaved ∈ events cfg w)
  ∧ (exit_code cfg w = Return 0 ->
       ∃ s tid, sublist (stages s tid) (events cfg w))
  ∧ (exit_code cfg w = Return 1 ↔
       ∃ m, failure_message m = true ∧ Print m ∈ events cfg w).
Proof.
  destruct (main_path cfg w) as (p & Hok & -> & -> & _).
  destruct p; cbn [path_code path_ok] in *.
  all: repeat match goal with H : _ ∧ _ |- _ => destruct H end.
  all: split; [auto|].
  all: split; [split; [try discriminate; intros _; event_here
                      |intros Hin; try reflexivity; split_events Hin]|].
  all: split; [try discriminate; intros _; eexists _, _; in_order|].
  all: split; [try discriminate; intros _
              |intros (m & Hm & Hin); try reflexivity; split_events Hin;
               try (injection Hin as ->; cbn in Hm; discriminate Hm);
               try (rewrite Forall_forall in *;
                    match goal with
                    | HF : ∀ x, x ∈ ?l -> _, H : _ ∈ ?l |- _ =>
                        apply HF in H; destruct m; cbn in *;
                        solve [discriminate | contradiction]
                    end)].
  - exists (handler_message e). unfold_events. unfold handler_message.
    destruct (is_psycopg2_Error e); (split; [reflexivity|event_here]).
  - exists FetchFailed. split; [reflexivity|event_here].
  - exists (handler_message e). unfold_events. unfold handler_message.
    destruct (is_psycopg2_Error e); (split; [reflexivity|event_here]).
  - exists (UnexpectedError e). split; [reflexivity|event_here].
  - exists TalentNotFound. split; [reflexivity|event_here].
  - exists (UnexpectedError e). split; [reflexivity|event_here].
  - exists SaveFailed. split; [reflexivity|event_here].
  - exists (handler_message e'). unfold_events. unfold handler_message.
    destruct (is_psycopg2_Error e'); (split; [reflexivity|event_here]).
Qed.

(** A run that returns 1 has left [snapshots] as it was, and only
    such a run. *)
Lemma main_one_iff_no_row cfg w :
  exit_code cfg w = Return 1 ↔ snapshots (final cfg w) = snapshots w.
Proof.
  destruct (main_path cfg w) as (p & _ & -> & _ & -> & _).
  destruct p; cbn [path_code path_rows]; rewrite ?app_nil_r;
    try (split; reflexivity).
  split; [discriminate|]. intros Hrows.
  apply (f_equal (@length _)) in Hrows. rewrite length_app in Hrows.
  cbn in Hrows. lia.
Qed.

(** C2.  [main] returns 0 or 1.  It returns 0 exactly when every step
    of the pipeline went through: the API client was built, the fetch
    returned a record, none of the database calls raised (the
    connection, the three calls of the lookup, the three calls of the
    writer), and the lookup found a talent.  The run is then the
    complete one, call by call, up to the line that reports the saved
    snapshot, and the row is in [snapshots].  In every other case
    [main] returns 1, and it returns 1 exactly when [snapshots] is as it
    was; it then reports one of the failures: the fetch failed, the
    talent was not found, the write failed, a database connection
    error, or any other exception.  The exit status of the process is 0
    or 1, and 0 exactly when the configuration was imported and [main]
    returned 0. *)
Theorem exit_code_zero_iff_snapshot_saved cfg w environ dotenv :
  (exit_code cfg w = Return 0 ∨ exit_code cfg w = Return 1)
  ∧ (exit_code cfg w = Return 0 ↔ ∃ s tid, completes cfg w s tid)
  ∧ (∀ s tid, completes cfg w s tid ->
       events cfg w = complete_run cfg s tid
       ∧ snapshots (final cfg w)
         = (snapshots w ++ [snapshot_row tid s (now w)])%list)
  ∧ (exit_code cfg w = Return 1 ↔ ¬ ∃ s tid, completes cfg w s tid)
  ∧ (exit_code cfg w = Return 1 ↔ snapshots (final cfg w) = snapshots w)
  ∧ (exit_code cfg w = Return 0 ↔ Print SnapshotSaved ∈ events cfg w)
  ∧ (exit_code cfg w = Return 0 ->
       ∃ s tid, sublist (stages s tid) (events cfg w))
  ∧ (exit_code cfg w = Return 1 ↔
       ∃ m, failure_message m = true ∧ Print m ∈ events cfg w)
  ∧ (fst (script environ dotenv w) = 0 ∨ fst (script environ dotenv w) = 1)
  ∧ (fst (script environ dotenv w) = 0 ↔
       ∃ cfg', import_config (load_dotenv environ dotenv) = Return cfg'
               ∧ exit_code cfg' w = Return 0).
Proof.
  pose proof (script_exit_code environ dotenv w) as [Hstatus Hscript].
  pose proof (main_reports cfg w) as (Hcode & Hsaved & Hstages & Hfailure).
  pose proof (main_one_iff_no_row cfg w) as Hrows.
  assert (Hzero : exit_code cfg w = Return 0 ↔ ∃ s tid, completes cfg w s tid).
  { split; [apply main_zero_inv|].
    intros (s & tid & Hsteps). now destruct (main_saves cfg w s tid Hsteps). }
  split; [exact Hcode|]. split; [exact Hzero|]. split.
  { intros s tid Hsteps.
    destruct (main_saves cfg w s tid Hsteps) as (_ & Hrow & Hevents). auto. }
  split.
  { rewrite <- Hzero. destruct Hcode as [-> | ->]; split; congruence. }
  exact (conj Hrows (conj Hsaved (conj Hstages
           (conj Hfailure (conj Hstatus Hscript))))).
Qed.

Lemma of_fetch_not_db ev : of_fetch ev -> is_db_event ev = false.
Proof. destruct ev as [m| | | | | | | | | | | |]; try easy. Qed.

Lemma of_fetch_not_insert ev : of_fetch ev -> is_insert_event ev = false.
Proof. destruct ev as [m| | | | | | | | | | | |]; try easy. Qed.

Lemma of_lookup_not_insert ev : of_lookup ev -> is_insert_event ev = false.
Proof. destruct ev as [m| | | | | | | | | | | |]; try easy. Qed.

(** A property of every event of a path, from the properties of the
    events of the calls. *)
Ltac all_events :=
  unfold_events; rewrite ?Forall_app, ?Forall_cons, ?Forall_nil;
  repeat split; try reflexivity;
  try (eapply Forall_impl; [eassumption|];
       first [ exact of_fetch_not_db | exact of_fetch_not_insert
             | exact of_lookup_not_insert ]).

(** C10.  When the fetch returns [None], no event of the run is a call
    to the database; and every call to the database that a run makes
    comes after the line that reports the fetched statistics, in a run
    whose fetch returned a record. *)
Theorem database_only_after_fetch cfg w :
  (fetch_result cfg w = Return None ->
   Forall (fun ev => is_db_event ev = false) (events cfg w))
  ∧ (Print FetchFailed ∈ events cfg w ->
     fetch_result cfg w = Return None
     ∧ Forall (fun ev => is_db_event ev = false) (events cfg w))
  ∧ (∀ ev, ev ∈ events cfg w -> is_db_event ev = true ->
       ∃ s, fetch_result cfg w = Return (Some s)
            ∧ sublist [Print (StatsFetched s); ev] (events cfg w)).
Proof.
  destruct (main_path cfg w) as (p & Hok & _ & -> & _).
  destruct p; cbn [path_ok] in Hok.
  all: repeat match goal with H : _ ∧ _ |- _ => destruct H end.
  all: split; [intros Hnone; try congruence; all_events|].
  all: split; [intros Hin; split_events Hin; (split; [assumption|all_events])|].
  all: intros ev Hin Hdb; split_events Hin; subst; try discriminate.
  all: try (exfalso;
            match goal with
            | H : ?ev ∈ ?l, HF : Forall (fun x => Is_true (of_fetch x)) ?l |- _ =>
                rewrite Forall_forall in HF; apply HF, of_fetch_not_db in H;
                congruence
            end).
  all: try (unfold handler_message in Hdb; destruct (is_psycopg2_Error e);
            discriminate).
  all: exists s; (split; [assumption|in_order]).
Qed.

(** C5.  When the run reports that the talent was not found, [main]
    returns 1, no INSERT was attempted and table [snapshots] is as it
    was.  In every run, each row added to [snapshots] carries the
    identifier of a row of [talents] for the configured channel, the one
    the run reported as found; and every INSERT attempted comes after
    that report. *)
Theorem no_insert_without_talent cfg w :
  (Print TalentNotFound ∈ events cfg w ->
   exit_code cfg w = Return 1
   ∧ Forall (fun ev => is_insert_event ev = false) (events cfg w)
   ∧ snapshots (final cfg w) = snapshots w)
  ∧ (∃ rows,
       snapshots (final cfg w) = (snapshots w ++ rows)%list
       ∧ ∀ row, row ∈ rows ->
           resolved w (YUURA_CHANNEL_ID cfg) (Snapshots.talent_id row)
           ∧ Print (TalentFound (Snapshots.talent_id row)) ∈ events cfg w)
  ∧ (∀ ev, ev ∈ events cfg w -> is_insert_event ev = true ->
       ∃ tid, resolved w (YUURA_CHANNEL_ID cfg) tid
              ∧ sublist [Print (TalentFound tid); ev] (events cfg w)).
Proof.
  destruct (main_path cfg w) as (p & Hok & -> & -> & -> & _).
  destruct p; cbn [path_ok path_code path_rows] in *.
  all: repeat match goal with H : _ ∧ _ |- _ => destruct H end.
  all: split;
    [intros Hin; split_events Hin;
     (split; [reflexivity|]); (split; [all_events|apply app_nil_r])|].
  all: split;
    [eexists; split; [reflexivity|]; intros row Hrow;
     rewrite ?elem_of_nil, ?list_elem_of_singleton in Hrow;
     try contradiction; subst row; cbn; (split; [assumption|event_here])|].
  all: intros ev Hin Hins; split_events Hin; subst; try discriminate.
  all: try (exfalso; rewrite Forall_forall in *;
            match goal with
            | H : ?ev ∈ ?l, HF : ∀ x, x ∈ ?l -> Is_true (of_fetch x) |- _ =>
                apply HF, of_fetch_not_insert in H; congruence
            | H : ?ev ∈ ?l, HF : ∀ x, x ∈ ?l -> Is_true (of_lookup x) |- _ =>
                apply HF, of_lookup_not_insert in H; congruence
            end).
  all: try (unfold handler_message in Hins; destruct (is_psycopg2_Error e);
            discriminate).
  all: exists tid; (split; [assumption|in_order]).
Qed.

(** C1, as amended.  In every run in which the fetch succeeded with the
    record [s], the lookup found the talent [tid], and no call of the
    writer raised (neither a database error nor any other exception was
    reported), exactly one row is added to [snapshots]: its [talent_id]
    is [tid], the identifier of a talent row of the channel, its three
    counts are those of [s], and [main] returns 0. *)
Theorem snapshot_saved_once cfg w s tid :
  Print (StatsFetched s) ∈ events cfg w ->
  Print (TalentFound tid) ∈ events cfg w ->
  (∀ e, Print (DbErrorSaving e) ∉ events cfg w) ->
  (∀ e, Print (UnexpectedError e) ∉ events cfg w) ->
  exit_code cfg w = Return 0
  ∧ snapshots (final cfg w) = (snapshots w ++ [snapshot_row tid s (now w)])%list
  ∧ fetch_result cfg w = Return (Some s)
  ∧ resolved w (YUURA_CHANNEL_ID cfg) tid.
Proof.
  destruct (main_path cfg w) as (p & Hok & -> & -> & -> & _).
  intros Hs Htid Hdb Hother.
  destruct p; cbn [path_ok path_code path_rows] in *.
  all: repeat match goal with H : _ ∧ _ |- _ => destruct H end.
  all: try (exfalso; apply (Hother e); event_here).
  all: try (exfalso; apply (Hdb e); event_here).
  all: split_events Hs; split_events Htid.
  injection Hs as ->. injection Htid as ->. auto.
Qed.

(** C6.  The claim fails where the rollback itself raises.  The
    connection is lost while the INSERT runs: [execute] raises an
    [OperationalError], the handler of [save_snapshot] reports it and
    calls [conn.rollback()], which raises an [InterfaceError].  The
    writer then raises that exception, where its docstring and the claim
    have it return [False], and [main] handles it as a database
    connection error, without the line of the failed write.  The run
    still returns 1 and no row is added. *)
Theorem save_snapshot_rollback_raises :
  fst (save_snapshot PgConnection talent_uuid stats_ok
         (with_faults world_ok
            [ None; Some (Psycopg2Error OperationalError);
              Some (Psycopg2Error InterfaceError) ]))
  = Raise (Psycopg2Error InterfaceError)
  ∧ events cfg_ok world_rollback_fails
    = [ Print (Banner channel); Print ConnectingApi; ApiBuild (Some "key");
        Print ApiConnected; Print (FetchingStats channel); ApiExecute channel;
        Print (StatsFetched stats_ok); Print ConnectingDb;
        DbConnect (DB_CONFIG cfg_ok); Print DbConnected; Print LookingUpTalent;
        DbCursor; DbSelect channel; DbFetchone; DbCursorClose;
        Print (TalentFound talent_uuid); Print SavingSnapshot;
        DbCursor; DbInsert talent_uuid stats_ok;
        Print (DbErrorSaving (Psycopg2Error OperationalError)); DbRollback;
        Print (DbConnectionError (Psycopg2Error InterfaceError));
        DbClose; Print ConnectionClosed ]
  ∧ exit_code cfg_ok world_rollback_fails = Return 1
  ∧ snapshots (final cfg_ok world_rollback_fails) = snapshots world_rollback_fails.
Proof. repeat split; reflexivity. Qed.

(** X24.  A run in which the writer reports a database error returns
    1 without a row: the rollback is called after the error is
    reported, then [main] reports the failed write when the rollback
    went through, or the exception that the rollback raised; table
    [snapshots] is as it was before the run and no transaction is left
    open. *)
Theorem main_insert_error cfg w e :
  Print (DbErrorSaving e) ∈ events cfg w ->
  exit_code cfg w = Return 1
  ∧ (sublist [Print (DbErrorSaving e); DbRollback; Print SaveFailed] (events cfg w)
     ∨ ∃ e', sublist [Print (DbErrorSaving e); DbRollback;
                      Print (handler_message e')] (events cfg w))
  ∧ snapshots (final cfg w) = snapshots w
  ∧ pending (final cfg w) = [].
Proof.
  destruct (main_path cfg w) as (p & Hok & -> & -> & -> & _ & Hpend).
  intros Hin.
  destruct p; cbn [path_ok path_code path_rows path_connected] in *.
  all: repeat match goal with H : _ ∧ _ |- _ => destruct H end.
  all: split_events Hin.
  all: injection Hin as ->.
  all: split; [reflexivity|].
  all: split; [|split; [apply app_nil_r|auto]].
  - left. in_order.
  - right. exists e'. in_order.
Qed.

(** ** The configuration *)

Lemma elem_of_filter_bool (f : string -> bool) (l : list string) (x : string) :
  x ∈ List.filter f l ↔ x ∈ l ∧ f x = true.
Proof. rewrite !list_elem_of_In. apply filter_In. Qed.

(** What importing the configuration does, for a DB_PORT that [int]
    accepts: it raises when one of the checked variables is missing and
    returns the globals otherwise. *)
Lemma import_config_cases env p :
  db_port env = Return p ->
  import_config env
  = match missing_in env with
    | [] =>
        Return
          {| DB_CONFIG :=
               {| host := getenv env "DB_HOST";
                  database := getenv env "DB_NAME";
                  user := getenv env "DB_USER";
                  password := getenv env "DB_PASSWORD";
                  port := p |};
             YOUTUBE_API_KEY := getenv env "YOUTUBE_API_KEY";
             SUPABASE_URL := getenv env "SUPABASE_URL";
             SUPABASE_KEY := getenv env "SUPABASE_KEY";
             YUURA_CHANNEL_ID :=
               getenv_or env "YUURA_CHANNEL_ID" "UCrmtSeYObZJNG6OIC7Pw-_A" |}
    | names => Raise (EnvironmentError (missing_message names))
    end.
Proof.
  intros Hport.
  unfold import_config. rewrite Hport. cbn [obind].
  unfold validate_config, missing, required, missing_in, required_names, getenv.
  cbn [List.filter List.map snd fst DB_CONFIG YOUTUBE_API_KEY SUPABASE_URL
       host password].
  destruct (falsy (env !! "YOUTUBE_API_KEY")), (falsy (env !! "DB_HOST")),
    (falsy (env !! "DB_PASSWORD")), (falsy (env !! "SUPABASE_URL"));
    reflexivity.
Qed.

(** C3, as amended.  The variables checked are YOUTUBE_API_KEY, DB_HOST,
    DB_PASSWORD and SUPABASE_URL.  With a DB_PORT that is unset or an
    integer literal: when one of the four is unset or empty, importing
    the configuration raises an [EnvironmentError] whose message lists
    exactly those of the four that are missing, in this order, and the
    process ends with status 1 having made no call to the network or the
    database (the only event is the uncaught exception). *)
Theorem missing_configuration_aborts environ dotenv w p :
  let env := load_dotenv environ dotenv in
  db_port env = Return p ->
  missing_in env ≠ [] ->
  import_config env = Raise (EnvironmentError (missing_message (missing_in env)))
  ∧ script environ dotenv w
    = (1, with_trace w
            (trace w ++ [Uncaught (EnvironmentError
                                     (missing_message (missing_in env)))]))
  ∧ Forall (fun ev => is_network_event ev = false ∧ is_db_event ev = false)
      (drop (length (trace w)) (trace (snd (script environ dotenv w))))
  ∧ (∀ name, name ∈ missing_in env
             ↔ name ∈ required_names ∧ falsy (env !! name) = true).
Proof.
  intros env Hport Hne.
  assert (Hraise : import_config env
    = Raise (EnvironmentError (missing_message (missing_in env)))).
  { rewrite (import_config_cases env p Hport).
    destruct (missing_in env); [congruence|reflexivity]. }
  assert (Hscript : script environ dotenv w
    = (1, with_trace w
            (trace w ++ [Uncaught (EnvironmentError
                                     (missing_message (missing_in env)))]))).
  { unfold script. fold env. now rewrite Hraise. }
  split; [exact Hraise|]. split; [exact Hscript|]. split.
  - rewrite Hscript. cbn [snd with_trace trace]. rewrite drop_app_length.
    repeat constructor.
  - intros name. apply elem_of_filter_bool.
Qed.

(** C3 as stated fails: with DB_NAME and DB_USER unset and the four
    checked variables set, the import succeeds and the process goes on
    to call the API. *)
Lemma import_without_db_name :
  environ_no_db_name !! "DB_NAME" = None
  ∧ environ_no_db_name !! "DB_USER" = None
  ∧ (∃ cfg, import_config (load_dotenv environ_no_db_name ∅) = Return cfg
            ∧ database (DB_CONFIG cfg) = None ∧ user (DB_CONFIG cfg) = None)
  ∧ ApiBuild (Some "key") ∈ trace (snd (script environ_no_db_name ∅ world_ok)).
Proof.
  split; [reflexivity|]. split; [reflexivity|]. split.
  - eexists. split; [vm_compute; reflexivity|]. split; reflexivity.
  - vm_compute. repeat first [apply list_elem_of_here | apply list_elem_of_further].
Qed.

(** ** The theorems at sample inputs *)

Ltac here := vm_compute; repeat first [apply list_elem_of_here | apply list_elem_of_further].

Ltac not_here H :=
  vm_compute in H;
  repeat (apply elem_of_cons in H; destruct H as [H|H]; [discriminate H|]);
  now apply elem_of_nil in H.

(** C1 as stated fails: the fetch succeeds, the talent is found, the
    database refuses the INSERT; no row is added and [main] returns 1. *)
Lemma snapshot_not_saved_when_insert_fails :
  Print (StatsFetched stats_ok) ∈ events cfg_ok world_insert_fails
  ∧ Print (TalentFound talent_uuid) ∈ events cfg_ok world_insert_fails
  ∧ DbInsert talent_uuid stats_ok ∈ events cfg_ok world_insert_fails
  ∧ exit_code cfg_ok world_insert_fails = Return 1
  ∧ snapshots (final cfg_ok world_insert_fails) = snapshots world_insert_fails.
Proof.
  split; [here|]. split; [here|]. split; [here|]. split; reflexivity.
Qed.

Lemma snapshot_saved_once_witness :
  exit_code cfg_ok world_ok = Return 0
  ∧ snapshots (final cfg_ok world_ok)
    = [ snapshot_row talent_uuid stats_ok 1700000000 ].
Proof.
  destruct (snapshot_saved_once cfg_ok world_ok stats_ok talent_uuid)
    as (Hcode & Hrows & _).
  - here.
  - here.
  - intros e H. not_here H.
  - intros e H. not_here H.
  - split; [exact Hcode|exact Hrows].
Defined.

Lemma exit_code_zero_iff_snapshot_saved_witness :
  exit_code cfg_ok world_ok = Return 0
  ∧ events cfg_ok world_ok = complete_run cfg_ok stats_ok talent_uuid
  ∧ snapshots (final cfg_ok world_ok)
    = [ snapshot_row talent_uuid stats_ok 1700000000 ]
  ∧ exit_code cfg_ok world_no_talent = Return 1.
Proof.
  assert (Hsteps : completes cfg_ok world_ok stats_ok talent_uuid).
  { unfold completes. repeat split; try reflexivity. discriminate. }
  destruct (exit_code_zero_iff_snapshot_saved cfg_ok world_ok ∅ ∅)
    as (_ & Hzero & Hrun & _).
  destruct (exit_code_zero_iff_snapshot_saved cfg_ok world_no_talent ∅ ∅)
    as (_ & _ & _ & Hone & _).
  split; [apply Hzero; exists stats_ok, talent_uuid; exact Hsteps|].
  split; [exact (proj1 (Hrun _ _ Hsteps))|].
  split; [exact (proj2 (Hrun _ _ Hsteps))|].
  apply Hone. intros (s & tid & _ & _ & _ & Hhead & _).
  vm_compute in Hhead. discriminate Hhead.
Defined.

Lemma missing_configuration_aborts_witness :
  missing_in (load_dotenv environ_no_host ∅) = [ "DB_HOST"; "DB_PASSWORD" ]
  ∧ fst (script environ_no_host ∅ world_ok) = 1
  ∧ trace (snd (script environ_no_host ∅ world_ok))
    = [ Uncaught (EnvironmentError (missing_message [ "DB_HOST"; "DB_PASSWORD" ])) ].
Proof.
  destruct (missing_configuration_aborts environ_no_host ∅ world_ok 5432)
    as (_ & Hscript & _).
  - reflexivity.
  - vm_compute. discriminate.
  - split; [reflexivity|]. rewrite Hscript. split; reflexivity.
Defined.

Lemma fetch_channel_stats_counters_witness :
  fst (fetch_channel_stats (YouTube (Some "key")) channel
         (with_api world_ok (Return response_hidden)))
  = Return (Some {| subscriber_count := 0; view_count := 34000;
                    video_count := 56 |}).
Proof.
  apply (fetch_channel_stats_counters _ _ _ response_hidden
           [ ("viewCount", PyStr "34000");
             ("hiddenSubscriberCount", PyBool true);
             ("videoCount", PyStr "56") ]); reflexivity.
Defined.

Lemma no_insert_without_talent_witness :
  exit_code cfg_ok world_no_talent = Return 1
  ∧ Forall (fun ev => is_insert_event ev = false) (events cfg_ok world_no_talent)
  ∧ snapshots (final cfg_ok world_no_talent) = [].
Proof.
  apply (proj1 (no_insert_without_talent cfg_ok world_no_talent)). here.
Defined.

Lemma main_insert_error_witness :
  exit_code cfg_ok world_insert_fails = Return 1
  ∧ snapshots (final cfg_ok world_insert_fails) = []
  ∧ pending (final cfg_ok world_insert_fails) = [].
Proof.
  destruct (main_insert_error cfg_ok world_insert_fails
              (Psycopg2Error IntegrityError))
    as (Hcode & _ & Hrows & Hpending).
  - here.
  - split; [exact Hcode|]. split; [exact Hrows|exact Hpending].
Defined.

Lemma save_snapshot_rolls_back_witness :
  fst (save_snapshot PgConnection talent_uuid stats_ok
         (with_faults world_ok [ None; Some (Psycopg2Error IntegrityError) ]))
  = Return false
  ∧ fst (save_snapshot PgConnection talent_uuid stats_ok
           (with_faults world_ok
              [ None; Some (Psycopg2Error OperationalError);
                Some (Psycopg2Error InterfaceError) ]))
    = Raise (Psycopg2Error InterfaceError).
Proof.
  destruct (save_snapshot_rolls_back PgConnection talent_uuid stats_ok
              (with_faults world_ok [ None; Some (Psycopg2Error IntegrityError) ])
              (Psycopg2Error IntegrityError) eq_refl eq_refl)
    as (w1 & evs1 & H1 & _).
  destruct (save_snapshot_rolls_back PgConnection talent_uuid stats_ok
              (with_faults world_ok
                 [ None; Some (Psycopg2Error OperationalError);
                   Some (Psycopg2Error InterfaceError) ])
              (Psycopg2Error OperationalError) eq_refl eq_refl)
    as (w2 & evs2 & H2 & _).
  rewrite H1, H2. split; reflexivity.
Defined.

Lemma fetch_channel_stats_could_not_fetch_witness :
  fst (fetch_channel_stats (YouTube (Some "key")) channel
         (with_api world_ok (Raise (HttpError 403))))
  = Return None
  ∧ fst (fetch_channel_stats (YouTube (Some "key")) channel
           (with_api world_ok (Raise TransportError)))
    = Return None
  ∧ fst (fetch_channel_stats (YouTube (Some "key")) channel
           (with_api world_ok (Return response_empty)))
    = Return None.
Proof.
  destruct (fetch_channel_stats_could_not_fetch (YouTube (Some "key")) channel)
    as (_ & Hraise & Hempty).
  split; [|split].
  - apply (Hraise _ (HttpError 403)). reflexivity.
  - apply (Hraise _ TransportError). reflexivity.
  - apply (Hempty _ response_empty PyNone); reflexivity.
Defined.

Lemma get_talent_id_not_found_witness :
  fst (get_talent_id PgConnection channel world_no_talent) = Return None
  ∧ fst (get_talent_id PgConnection channel
           (with_faults world_ok [ None; Some (Psycopg2Error OperationalError) ]))
    = Return None.
Proof.
  split.
  - apply (proj1 (get_talent_id_not_found PgConnection channel world_no_talent));
      reflexivity.
  - apply (proj1 (proj2 (get_talent_id_not_found PgConnection channel
                           (with_faults world_ok
                              [ None; Some (Psycopg2Error OperationalError) ])))
             (Psycopg2Error OperationalError)); reflexivity.
Defined.

(** C4 as stated fails: a response that contains the matching resource
    without a statistics object, and one whose subscriber counter is
    present but abbreviated, are both answered with [None], not with a
    record. *)
Lemma fetch_channel_stats_no_record :
  get response_no_statistics "items" PyNone
  = Return (PyList [ PyDict [ ("kind", PyStr "youtube#channel");
                              ("id", PyStr channel) ] ])
  ∧ fst (fetch_channel_stats (YouTube (Some "key")) channel
           (with_api world_ok (Return response_no_statistics)))
    = Return None
  ∧ statistics_of (response_with statistics_abbreviated)
    = Return (PyDict statistics_abbreviated)
  ∧ assoc "subscriberCount" statistics_abbreviated = Some (PyStr "1.2K")
  ∧ fst (fetch_channel_stats (YouTube (Some "key")) channel
           (with_api world_ok (Return (response_with statistics_abbreviated))))
    = Return None.
Proof. repeat split; reflexivity. Qed.

(** C9 as stated fails: a response whose subscriber counter is the
    text of a negative number is fetched successfully, and the field of
    the record is negative. *)
Lemma fetch_channel_stats_negative_counter :
  fst (fetch_channel_stats (YouTube (Some "key")) channel
         (with_api world_ok (Return response_negative)))
  = Return (Some {| subscriber_count := -5; view_count := 34000;
                    video_count := 56 |})
  ∧ ¬ (0 <= subscriber_count {| subscriber_count := -5; view_count := 34000;
                                video_count := 56 |}).
Proof. split; [reflexivity|]. cbn. lia. Qed.

Lemma fetch_channel_stats_sign_witness :
  0 <= subscriber_count stats_ok ∧ 0 <= view_count stats_ok
  ∧ 0 <= video_count stats_ok.
Proof.
  destruct (fetch_channel_stats_sign (YouTube (Some "key")) channel
              (with_api world_ok (Return response_ok)) response_ok stats_ok)
    as (d & Hd & _ & _ & _ & Hsign).
  - reflexivity.
  - reflexivity.
  - apply Hsign. injection Hd as <-.
    intros key v n Hkey Hv Hn. unfold counter_keys in Hkey.
    repeat (apply elem_of_cons in Hkey; destruct Hkey as [->|Hkey];
            [injection Hv as <-; injection Hn as <-; lia|]).
    now apply elem_of_nil in Hkey.
Defined.

Lemma database_only_after_fetch_witness :
  Forall (fun ev => is_db_event ev = false)
    (events cfg_ok (with_api world_ok (Raise (HttpError 403)))).
Proof.
  apply (proj1 (database_only_after_fetch cfg_ok
                  (with_api world_ok (Raise (HttpError 403))))).
  reflexivity.
Defined.

(** ** The model on sample inputs *)

Example int_of_str_plain : int_of_str "34000" = Some 34000.
Proof. reflexivity. Qed.

Example int_of_str_padded : int_of_str "  +1_000 " = Some 1000.
Proof. reflexivity. Qed.

Example int_of_str_negative : int_of_str "-5" = Some (-5).
Proof. reflexivity. Qed.

Example int_of_str_rejects :
  int_of_str "abc" = None ∧ int_of_str "" = None ∧ int_of_str "1__0" = None
  ∧ int_of_str "12_" = None ∧ int_of_str "5.0" = None.
Proof. repeat split. Qed.

(** The separators that [str.strip] removes are not white space for
    [int]; the no-break space is. *)
Example int_of_str_separator :
  int_of_str (String (ascii_of_nat 28) "5") = None
  ∧ int_of_str (String (ascii_of_nat 160) "5") = Some 5.
Proof. split; reflexivity. Qed.

(** The longest literal [int] converts has 4300 digits. *)
Example int_digit_limit :
  int (PyStr (decimal (10 ^ 4300 - 1))) = Return (Z.of_N (10 ^ 4300 - 1))
  ∧ int (PyStr (decimal (10 ^ 4300))) = Raise ValueError.
Proof.
  split.
  - apply int_decimal. apply N.sub_lt; [|reflexivity].
    change (N.succ 0 <= 10 ^ int_max_str_digits)%N.
    apply N.le_succ_l, N.neq_0_lt_0, N.pow_nonzero. discriminate.
  - apply int_decimal_too_long. apply N.le_refl.
Qed.

Example decimal_sample : decimal 18446744073709551615 = "18446744073709551615".
Proof. reflexivity. Qed.

Example import_config_ok : import_config environ_ok = Return cfg_ok.
Proof. reflexivity. Qed.

Example main_ok :
  exit_code cfg_ok world_ok = Return 0
  ∧ snapshots (final cfg_ok world_ok)
    = [ snapshot_row talent_uuid stats_ok 1700000000 ]
  ∧ connection (final cfg_ok world_ok) = Some Closed.
Proof. repeat split. Qed.

Example main_no_talent_events :
  events cfg_ok world_no_talent
  = [ Print (Banner channel); Print ConnectingApi; ApiBuild (Some "key");
      Print ApiConnected; Print (FetchingStats channel); ApiExecute channel;
      Print (StatsFetched stats_ok); Print ConnectingDb;
      DbConnect (DB_CONFIG cfg_ok); Print DbConnected; Print LookingUpTalent;
      DbCursor; DbSelect channel; DbFetchone; DbCursorClose;
      Print (NoTalentFound channel); Print TalentNotFound;
      DbClose; Print ConnectionClosed ].
Proof. reflexivity. Qed.

Example main_api_down_events :
  events cfg_ok (with_api world_ok (Raise (HttpError 403)))
  = [ Print (Banner channel); Print ConnectingApi; ApiBuild (Some "key");
      Print ApiConnected; Print (FetchingStats channel); ApiExecute channel;
      Print (ApiError (HttpError 403)); Print FetchFailed ].
Proof. reflexivity. Qed.

(** * Further properties of the script *)

(** ** [fetch_channel_stats], continued *)

(** X4.  A call of the fetcher makes exactly one request, for the channel
    it was given, and changes nothing in the world but the trace: no
    table, no connection, no planned outcome.  It prints one diagnostic
    when it returns [None] and nothing when it returns a record. *)
Theorem fetch_channel_stats_one_request youtube channel_id w :
  ∃ r msgs,
    fetch_channel_stats youtube channel_id w
    = (Return r, with_trace w (trace w ++ ApiExecute channel_id :: msgs))
    ∧ count is_api_request (ApiExecute channel_id :: msgs) = 1%nat
    ∧ Forall (fun ev => is_db_event ev = false) msgs
    ∧ (∀ s, r = Some s -> msgs = [])
    ∧ (r = None -> ∃ m, msgs = [ Print m ]).
Proof.
  destruct (fetch_channel_stats_exact youtube channel_id w) as (r & evs & H & Hrun).
  exists r. destruct Hrun; eexists; (split; [exact H|]); cbn;
    repeat split; try discriminate; eauto; repeat constructor.
Qed.

(** X5.  Only the first item of the response is read: the items after
    it do not change what the fetcher returns. *)
Theorem fetch_channel_stats_first_item youtube channel_id w1 w2 d1 d2 item rest :
  api_execute w1 channel_id = Return (PyDict d1) ->
  assoc "items" d1 = Some (PyList (item :: rest)) ->
  api_execute w2 channel_id = Return (PyDict d2) ->
  assoc "items" d2 = Some (PyList [ item ]) ->
  fst (fetch_channel_stats youtube channel_id w1)
  = fst (fetch_channel_stats youtube channel_id w2).
Proof.
  intros H1 Hd1 H2 Hd2.
  rewrite (fetch_channel_stats_response _ _ _ _ H1),
    (fetch_channel_stats_response _ _ _ _ H2).
  unfold statistics_of, get, getitem. rewrite Hd1, Hd2. reflexivity.
Qed.

(** X6.  Of the statistics object only the three counters are read: two
    responses whose statistics agree on them are fetched alike, whatever
    other members they carry. *)
Theorem fetch_channel_stats_three_keys youtube channel_id w1 w2 r1 r2 d1 d2 :
  api_execute w1 channel_id = Return r1 ->
  statistics_of r1 = Return (PyDict d1) ->
  api_execute w2 channel_id = Return r2 ->
  statistics_of r2 = Return (PyDict d2) ->
  (∀ key, key ∈ counter_keys -> assoc key d1 = assoc key d2) ->
  fst (fetch_channel_stats youtube channel_id w1)
  = fst (fetch_channel_stats youtube channel_id w2).
Proof.
  intros H1 Hs1 H2 Hs2 Hkeys.
  rewrite (fetch_channel_stats_response _ _ _ _ H1),
    (fetch_channel_stats_response _ _ _ _ H2).
  destruct (statistics_of_items _ _ Hs1) as (i1 & -> & ->).
  destruct (statistics_of_items _ _ Hs2) as (i2 & -> & ->).
  rewrite Hs1, Hs2. unfold read_counter, get.
  rewrite !Hkeys by (unfold counter_keys; set_solver). reflexivity.
Qed.

(** X7.  A response whose items are there but whose statistics cannot be
    read (the first item is not an object, or has no statistics member,
    or the member is not an object) makes the fetcher return [None]; it
    does not raise. *)
Theorem fetch_channel_stats_no_statistics youtube channel_id w response :
  api_execute w channel_id = Return response ->
  (∀ d, statistics_of response ≠ Return (PyDict d)) ->
  fst (fetch_channel_stats youtube channel_id w) = Return None.
Proof.
  intros Hresp Hst.
  rewrite (fetch_channel_stats_response _ _ _ _ Hresp).
  destruct (get response "items" PyNone) as [items|]; [|reflexivity].
  destruct (truthy items); [|reflexivity].
  destruct (statistics_of response) as [st|]; [|reflexivity].
  destruct st as [| | | | |d]; try reflexivity.
  now destruct (Hst d).
Qed.

(** ** [get_talent_id], continued *)

Lemma filter_no_match (channel : string) (rows : list Talents.row) :
  Forall (fun r => Talents.youtube_id r <> channel) rows ->
  List.filter (fun r => String.eqb (Talents.youtube_id r) channel) rows = [].
Proof.
  induction 1 as [|r rows Hr _ IH]; [reflexivity|].
  cbn. apply String.eqb_neq in Hr. now rewrite Hr.
Qed.

(** X8.  When its three calls go through, the resolver returns the
    identifier of the first talent row that has the channel identifier,
    whatever rows come after it. *)
Theorem get_talent_id_first_match conn channel_id w before t after :
  first_fault 3 (db_faults w) = None ->
  talents w = (before ++ t :: after)%list ->
  Forall (fun r => Talents.youtube_id r <> channel_id) before ->
  Talents.youtube_id t = channel_id ->
  fst (get_talent_id conn channel_id w) = Return (Some (Talents.id t)).
Proof.
  destruct w as [ab ae fs tl sn pe nw cn tr]. cbn [db_faults talents].
  intros Hfs -> Hbefore Ht.
  assert (Hhead :
    List.head
      (List.map Talents.id
         (List.filter (fun r => String.eqb (Talents.youtube_id r) channel_id)
            (before ++ t :: after)))
    = Some (Talents.id t)).
  { rewrite List.filter_app, (filter_no_match _ _ Hbefore). cbn.
    apply String.eqb_eq in Ht. now rewrite Ht. }
  unfold get_talent_id, conn_cursor, execute_select, fetchone, cursor_close,
    fallible.
  unfold_monad. cbn.
  destruct fs as [|[e|] [|[e'|] [|[e''|] fs]]]; cbn in *;
    try discriminate; rewrite Hhead; reflexivity.
Qed.

Lemma one_two_three (k : nat) :
  (1 <= k <= 3)%nat -> k = 1%nat ∨ k = 2%nat ∨ k = 3%nat.
Proof. lia. Qed.

Ltac each_call :=
  repeat match goal with
         | H : (1 <= ?k <= 3)%nat |- _ =>
             destruct (one_two_three k H) as [->|[->| ->]]; clear H
         end.

(** X9.  The resolver only reads: it leaves both tables, the open
    transaction and the connection as they were, attempts no INSERT, no
    commit, no rollback and no request to the API, and the only SELECT
    it runs is for the channel identifier it was given. *)
Theorem get_talent_id_read_only conn channel_id w :
  let w' := snd (get_talent_id conn channel_id w) in
  talents w' = talents w
  ∧ snapshots w' = snapshots w
  ∧ pending w' = pending w
  ∧ connection w' = connection w
  ∧ Forall (fun ev => is_insert_event ev = false ∧ is_commit ev = false
                      ∧ is_rollback ev = false ∧ is_network_event ev = false)
      (added (get_talent_id conn channel_id) w)
  ∧ (∀ ev, ev ∈ added (get_talent_id conn channel_id) w ->
           is_select ev = true -> ev = DbSelect channel_id).
Proof.
  destruct (get_talent_id_exact conn channel_id w) as (r & k & evs & H & Hrun).
  unfold added. rewrite H. cbn [snd with_faults with_trace talents snapshots
                                 pending connection trace].
  rewrite drop_app_length.
  repeat (split; [reflexivity|]).
  destruct Hrun; each_call; cbn; (split; [repeat constructor|]).
  all: intros ev Hin Hsel.
  all: repeat (apply elem_of_cons in Hin; destruct Hin as [->|Hin];
               [first [reflexivity | discriminate Hsel]|]).
  all: now apply elem_of_nil in Hin.
Qed.

Ltac added_events :=
  unfold added, count; cbn; normalize_world; rewrite ?drop_app_length; cbn.

(** X10.  The cursor is closed only when the three calls before
    [cursor.close()] went through: the resolver and the writer close
    their cursor exactly once in that case, and not at all when one of
    the calls raised, whatever the exception. *)
Theorem cursor_closed_only_on_success conn channel_id tid s w :
  (first_fault 3 (db_faults w) = None ->
   count is_cursor_close (added (get_talent_id conn channel_id) w) = 1%nat
   ∧ count is_cursor_close (added (save_snapshot conn tid s) w) = 1%nat)
  ∧ (∀ e, first_fault 3 (db_faults w) = Some e ->
       count is_cursor_close (added (get_talent_id conn channel_id) w) = 0%nat
       ∧ count is_cursor_close (added (save_snapshot conn tid s) w) = 0%nat).
Proof.
  destruct w as [ab ae fs tl sn pe nw cn tr]. cbn [db_faults].
  split.
  - intros Hfs. split.
    + unfold get_talent_id, conn_cursor, execute_select, fetchone, cursor_close,
        fallible. unfold_monad.
      destruct fs as [|[e1|] [|[e2|] [|[e3|] fs]]]; cbn in Hfs;
        try discriminate Hfs; added_events; inner_case; added_events; reflexivity.
    + unfold save_snapshot, conn_cursor, execute_insert, conn_commit,
        conn_rollback, cursor_close, fallible. unfold_monad.
      destruct fs as [|[e1|] [|[e2|] [|[e3|] fs]]]; cbn in Hfs;
        try discriminate Hfs; added_events; reflexivity.
  - intros e Hfs. split.
    + unfold get_talent_id, conn_cursor, execute_select, fetchone, cursor_close,
        fallible. unfold_monad.
      destruct fs as [|[e1|] [|[e2|] [|[e3|] fs]]]; cbn in Hfs;
        try discriminate Hfs; injection Hfs as ->;
        destruct (is_psycopg2_Error e) eqn:Hpg; added_events;
        rewrite ?Hpg; added_events; reflexivity.
    + unfold save_snapshot, conn_cursor, execute_insert, conn_commit,
        conn_rollback, cursor_close, fallible. unfold_monad.
      destruct fs as [|[e1|] [|[e2|] [|[e3|] fs]]]; cbn in Hfs;
        try discriminate Hfs; injection Hfs as ->;
        destruct (is_psycopg2_Error e) eqn:Hpg; added_events;
        rewrite ?Hpg; added_events;
        try match goal with
            | |- context [match ?l with [] => _ | _ :: _ => _ end] =>
                destruct l as [|[?|] ?]
            end; added_events; reflexivity.
Qed.

(** ** [save_snapshot], continued *)

(** X11.  An exception of the writer's calls that is not a
    [psycopg2.Error] leaves the writer as it is: no rollback is
    attempted, and table [snapshots] is as it was. *)
Theorem save_snapshot_lets_through conn tid s w e :
  first_fault 3 (db_faults w) = Some e ->
  is_psycopg2_Error e = false ->
  fst (save_snapshot conn tid s w) = Raise e
  ∧ count is_rollback (added (save_snapshot conn tid s) w) = 0%nat
  ∧ snapshots (snd (save_snapshot conn tid s w)) = snapshots w.
Proof.
  destruct w as [ab ae fs tl sn pe nw cn tr], s as [subs views videos].
  cbn [db_faults]. intros Hfs Hpg.
  unfold save_snapshot, conn_cursor, execute_insert, conn_commit, conn_rollback,
    cursor_close, fallible. unfold_monad.
  destruct fs as [|[e1|] [|[e2|] [|[e3|] fs]]]; cbn in Hfs;
    try discriminate Hfs; injection Hfs as ->;
    added_events; rewrite Hpg; added_events; repeat split.
Qed.

(** X12.  The writer attempts at most one INSERT, one commit and one
    rollback; the INSERT is for the talent and the counts it was given;
    table [talents] is never touched.  Whenever the writer returns
    [False] it has called rollback, whenever it returns [True] it has
    not, and a rollback is the last call it makes. *)
Theorem save_snapshot_one_insert conn tid s w :
  (count is_insert_event (added (save_snapshot conn tid s) w) <= 1)%nat
  ∧ (count is_commit (added (save_snapshot conn tid s) w) <= 1)%nat
  ∧ (count is_rollback (added (save_snapshot conn tid s) w) <= 1)%nat
  ∧ (∀ ev, ev ∈ added (save_snapshot conn tid s) w ->
           is_insert_event ev = true -> ev = DbInsert tid s)
  ∧ talents (snd (save_snapshot conn tid s w)) = talents w
  ∧ (fst (save_snapshot conn tid s w) = Return false ->
     count is_rollback (added (save_snapshot conn tid s) w) = 1%nat)
  ∧ (fst (save_snapshot conn tid s w) = Return true ->
     count is_rollback (added (save_snapshot conn tid s) w) = 0%nat)
  ∧ (count is_rollback (added (save_snapshot conn tid s) w) = 1%nat ->
     ∃ before,
       added (save_snapshot conn tid s) w = (before ++ [ DbRollback ])%list).
Proof.
  destruct (save_snapshot_exact conn tid s w)
    as (r & k & evs & rows & open & H & Hrun & _).
  unfold added, count. rewrite H.
  cbn [fst snd with_rows with_faults with_trace talents trace].
  rewrite drop_app_length.
  destruct Hrun; each_call; cbn.
  all: (split; [lia|]); (split; [lia|]); (split; [lia|]); split;
    [|split; [reflexivity|]; split; [intros; first [reflexivity | discriminate]|];
      split; [intros; first [reflexivity | discriminate]|]].
  all: try (intros ev Hin Hins;
            repeat (apply elem_of_cons in Hin; destruct Hin as [->|Hin];
                    [first [reflexivity | discriminate Hins]|]);
            now apply elem_of_nil in Hin).
  all: intros Hone; try discriminate Hone.
  all: match goal with
       | |- ∃ before, ?l = _ => exists (take (length l - 1) l); reflexivity
       end.
Qed.

(** ** [main], continued *)

(** The events of the calls of an exact path, as lists. *)
Ltac concrete_path :=
  cbn [path_exact] in *;
  repeat match goal with
         | H : ?A ∧ _ |- _ =>
             lazymatch A with
             | (1 <= _)%nat => fail
             | _ => destruct H
             end
         | H : ∃ _, _ |- _ => destruct H
         end;
  subst;
  repeat match goal with
         | H : fetch_run _ _ _ |- _ => inversion H; clear H; subst
         | H : lookup_run _ _ _ _ |- _ => inversion H; clear H; subst
         | H : save_run _ _ _ _ _ |- _ => inversion H; clear H; subst
         end;
  repeat match goal with
         | H : app _ [_; _] = app ?sevs [_; _] |- _ =>
             apply app_inj_2 in H as [H _]; [subst sevs | reflexivity]
         end;
  each_call.

Ltac listed :=
  unfold_events; unfold handler_message; cbn;
  repeat match goal with
         | |- context [is_psycopg2_Error ?e] => destruct (is_psycopg2_Error e)
         end; cbn.

(** X13.  [main] asks for nothing twice: a run makes one call to build
    the API client, at most one request, at most one connection, at most
    one SELECT, one INSERT, one commit, one rollback and one close. *)
Theorem main_no_retry cfg w :
  let evs := events cfg w in
  count (fun ev => match ev with ApiBuild _ => true | _ => false end) evs = 1%nat
  ∧ (count is_api_request evs <= 1)%nat
  ∧ (count is_connect evs <= 1)%nat
  ∧ (count is_select evs <= 1)%nat
  ∧ (count is_insert_event evs <= 1)%nat
  ∧ (count is_commit evs <= 1)%nat
  ∧ (count is_rollback evs <= 1)%nat
  ∧ (count is_close evs <= 1)%nat.
Proof.
  destruct (main_path_exact cfg w) as (p & Hexact & _ & -> & _).
  destruct p; concrete_path.
  all: listed; unfold count; cbn; repeat split; lia.
Qed.

Ltac is_here :=
  cbv beta iota zeta delta [app];
  repeat first [apply list_elem_of_here | apply list_elem_of_further].

Lemma not_elem_of_existsb (f : event -> bool) (x : event) (l : list event) :
  f x = true -> existsb f l = false -> x ∉ l.
Proof.
  intros Hx Hl Hin. apply list_elem_of_In in Hin.
  assert (existsb f l = true) by (apply existsb_exists; eauto).
  congruence.
Qed.

Ltac is_not_here :=
  let H := fresh in
  intros H; exfalso; revert H;
  first [ apply (not_elem_of_existsb is_close); reflexivity
        | apply (not_elem_of_existsb
                   (fun ev => match ev with Print DbConnected => true | _ => false end));
          reflexivity ].

(** X14.  [main] never leaves a connection open.  It closes the
    connection exactly when [psycopg2.connect] returned one, whatever
    happened after; closing is then the last call of the run, and no
    transaction is left pending. *)
Theorem main_closes_connection cfg w :
  let evs := events cfg w in
  connection (final cfg w) ≠ Some Open
  ∧ (Print DbConnected ∈ evs ↔ connection (final cfg w) = Some Closed)
  ∧ (Print DbConnected ∈ evs ↔ DbClose ∈ evs)
  ∧ (DbClose ∈ evs ->
       ∃ before, evs = (before ++ [ DbClose; Print ConnectionClosed ])%list)
  ∧ (DbClose ∈ evs -> pending (final cfg w) = []).
Proof.
  cbn zeta.
  assert (Hpending : DbClose ∈ events cfg w -> pending (final cfg w) = []).
  { destruct (main_path cfg w) as (p & Hok & _ & -> & _ & _ & Hpending).
    intros Hin. apply Hpending.
    destruct p; cbn [path_ok path_connected] in *; try reflexivity.
    all: repeat match goal with H : _ ∧ _ |- _ => destruct H end.
    all: split_events Hin. }
  destruct (main_path_exact cfg w) as (p & Hexact & _ & Hev & -> & _).
  rewrite Hev in *. clear Hev.
  split; [destruct (path_connected p); discriminate|].
  split; [|split; [|split; [|exact Hpending]]]; clear Hpending.
  all: destruct p; concrete_path; listed.
  all: try (split; [is_not_here|discriminate]).
  all: try (split; [reflexivity|intros _; is_here]).
  all: try (split; [is_not_here|is_not_here]).
  all: try solve [is_not_here].
  all: try (split; [intros _; is_here|intros _; is_here]).
  all: intros _; cbv beta iota zeta delta [app].
  all: match goal with
       | |- ∃ before, ?l = _ =>
           exists (take (length l - 2) l); reflexivity
       end.
Qed.

(** X15.  A run only ever appends to [snapshots], and at most one row:
    the rows that were there are kept, in order.  It appends a row
    exactly when it returns 0, and it never changes [talents]. *)
Theorem main_appends_at_most_one_row cfg w :
  ∃ rows,
    snapshots (final cfg w) = (snapshots w ++ rows)%list
    ∧ (length rows <= 1)%nat
    ∧ (exit_code cfg w = Return 0 ↔ length rows = 1%nat)
    ∧ (∀ r, r ∈ rows -> Snapshots.recorded_at r = now w)
    ∧ talents (final cfg w) = talents w.
Proof.
  destruct (main_path cfg w) as (p & _ & -> & _ & -> & -> & _).
  exists (path_rows (now w) p).
  split; [reflexivity|].
  destruct p; cbn; repeat split; try lia; try discriminate.
  all: try (intros r Hr; apply elem_of_nil in Hr; destruct Hr).
  intros r Hr. apply list_elem_of_singleton in Hr. now subst r.
Qed.

(** X16.  Every call of a run is made with the configured values: the
    client is built with YOUTUBE_API_KEY, the request and the SELECT are
    for YUURA_CHANNEL_ID, the connection is opened with DB_CONFIG; and
    what is inserted is the talent identifier and the counters that the
    run reported before. *)
Theorem main_uses_configuration cfg w :
  Forall (configured cfg) (events cfg w)
  ∧ (∀ tid s, DbInsert tid s ∈ events cfg w ->
       sublist [ Print (StatsFetched s); Print (TalentFound tid); DbInsert tid s ]
         (events cfg w)).
Proof.
  destruct (main_path_exact cfg w) as (p & Hexact & _ & -> & _).
  split.
  - destruct p; concrete_path; listed; repeat constructor.
  - intros tid s Hin.
    destruct p; concrete_path; listed.
    all: try solve [
      exfalso; revert Hin;
      apply (not_elem_of_existsb is_insert_event); reflexivity ].
    all: cbv beta iota zeta delta [app take save_calls lookup_calls] in Hin.
    all: repeat match goal with
           | H : _ ∈ _ :: _ |- _ => apply elem_of_cons in H as [H|H]
           | H : _ ∈ [] |- _ => apply elem_of_nil in H; destruct H
           end; try discriminate.
    all: injection Hin as -> ->.
    all: cbv beta iota zeta delta [app take save_calls lookup_calls].
    all: repeat first [ apply sublist_nil_l | apply sublist_skip | apply sublist_cons ].
Qed.

(** X17.  When building the API client raises, [main] reports the
    exception and returns 1 without a request to the API and without
    touching the database: the SELECT, the INSERT and the connection are
    never attempted. *)
Theorem main_build_failure cfg w e :
  api_build w = Some e ->
  exit_code cfg w = Return 1
  ∧ events cfg w
    = [ Print (Banner (YUURA_CHANNEL_ID cfg)); Print ConnectingApi;
        ApiBuild (YOUTUBE_API_KEY cfg); Print (handler_message e) ]
  ∧ connection (final cfg w) = None
  ∧ db_faults (final cfg w) = db_faults w
  ∧ snapshots (final cfg w) = snapshots w.
Proof.
  destruct w as [ab ae fs tl sn pe nw cn tr]. cbn [api_build].
  intros ->. unfold exit_code, events, final.
  run_main. destruct (is_psycopg2_Error e) eqn:He; run_main.
  all: unfold handler_message; rewrite He.
  all: rewrite <- ?app_assoc; cbn [app]; rewrite ?drop_app_length.
  all: repeat split; reflexivity.
Qed.

Local Opaque fetch_channel_stats.

(** X18.  When [psycopg2.connect] raises, [main] reports it and returns
    1; there is no connection to close, so [conn.close()] is not called,
    and no cursor is opened. *)
Theorem main_connect_failure cfg w s e faults :
  api_build w = None ->
  fetch_result cfg w = Return (Some s) ->
  db_faults w = Some e :: faults ->
  exit_code cfg w = Return 1
  ∧ events cfg w
    = (connecting cfg [ ApiExecute (YUURA_CHANNEL_ID cfg) ] s
         ++ [ Print (handler_message e) ])%list
  ∧ connection (final cfg w) = None
  ∧ db_faults (final cfg w) = faults
  ∧ snapshots (final cfg w) = snapshots w.
Proof.
  destruct w as [ab ae fs tl sn pe nw cn tr].
  cbn [api_build db_faults]. unfold fetch_result.
  intros -> Hfetch ->. unfold exit_code, events, final.
  run_main.
  match goal with
  | |- context [fetch_channel_stats ?y ?c ?w] =>
      destruct (fetch_channel_stats_exact y c w) as (r & fevs & Hf & Hrun);
      pose proof (fetch_channel_stats_depends_on_api y c w
                    {| api_build := None; api_execute := ae;
                       db_faults := Some e :: faults; talents := tl;
                       snapshots := sn; pending := pe; now := nw;
                       connection := cn; trace := tr |} eq_refl) as Hdep;
      rewrite Hf, Hfetch in Hdep; cbn [fst] in Hdep; injection Hdep as ->;
      rewrite Hf; clear Hf
  end.
  inversion Hrun; subst. run_main.
  destruct (is_psycopg2_Error e) eqn:He; run_main.
  all: unfold connecting, fetched, started, handler_message; rewrite He.
  all: rewrite <- ?app_assoc; cbn [app]; rewrite ?drop_app_length.
  all: repeat split; reflexivity.
Qed.

Local Transparent fetch_channel_stats.

Lemma first_fault_none (n : nat) (fs : list (option exn)) :
  Forall (fun f => f = None) fs -> first_fault n fs = None.
Proof.
  intros H. revert n. induction H as [|f fs -> _ IH]; intros [|n]; cbn; auto.
Qed.

(** X19.  [main] does not look for an earlier snapshot: a second run
    that fetches the same counters for the same talent adds a second
    row, which differs from the first in its timestamp only. *)
Theorem main_twice cfg w s tid t :
  api_build w = None ->
  fetch_result cfg w = Return (Some s) ->
  Forall (fun f => f = None) (db_faults w) ->
  List.head
    (List.map Talents.id
       (List.filter (fun r => String.eqb (Talents.youtube_id r) (YUURA_CHANNEL_ID cfg))
          (talents w)))
  = Some tid ->
  tid <> "" ->
  let again := at_time (final cfg w) t in
  exit_code cfg w = Return 0
  ∧ exit_code cfg again = Return 0
  ∧ snapshots (final cfg again)
    = (snapshots w ++ [ snapshot_row tid s (now w); snapshot_row tid s t ])%list.
Proof.
  intros Hbuild Hfetch Hfaults Hhead Htid again.
  destruct (main_saves cfg w s tid) as (Hcode & Hrows & _);
    [unfold completes; auto using first_fault_none|].
  destruct (main_path cfg w) as (_ & _ & _ & _ & _ & Htalents & _).
  destruct (main_path_exact cfg w) as (_ & _ & _ & _ & _ & Hb & He & _ & k & Hk).
  destruct (main_saves cfg again s tid) as (Hcode' & Hrows' & _).
  { unfold completes, again, at_time. cbn [api_build db_faults talents].
    split; [congruence|]. split.
    { unfold fetch_result in *. rewrite <- Hfetch.
      apply fetch_channel_stats_depends_on_api. cbn [api_execute].
      now rewrite He. }
    split; [apply first_fault_none; rewrite Hk; now apply Forall_drop|].
    split; [now rewrite Htalents|exact Htid]. }
  split; [exact Hcode|]. split; [exact Hcode'|].
  rewrite Hrows'. unfold again, at_time. cbn [snapshots now].
  rewrite Hrows, <- app_assoc. reflexivity.
Qed.

(** ** The configuration, continued *)

(** X20.  [validate_config] looks at four values only: it returns
    [True] exactly when YOUTUBE_API_KEY, DB_HOST, DB_PASSWORD and
    SUPABASE_URL are all set and not empty, it never returns [False],
    what it raises is an [EnvironmentError], and the database name, the
    user, the port, SUPABASE_KEY and the channel identifier play no
    part. *)
Theorem validate_config_checks_four cfg :
  (validate_config cfg = Return true
   ↔ falsy (YOUTUBE_API_KEY cfg) = false
     ∧ falsy (host (DB_CONFIG cfg)) = false
     ∧ falsy (password (DB_CONFIG cfg)) = false
     ∧ falsy (SUPABASE_URL cfg) = false)
  ∧ validate_config cfg ≠ Return false
  ∧ (∀ e, validate_config cfg = Raise e ->
       e = EnvironmentError (missing_message (missing cfg)) ∧ missing cfg ≠ [])
  ∧ (∀ cfg', YOUTUBE_API_KEY cfg' = YOUTUBE_API_KEY cfg ->
             host (DB_CONFIG cfg') = host (DB_CONFIG cfg) ->
             password (DB_CONFIG cfg') = password (DB_CONFIG cfg) ->
             SUPABASE_URL cfg' = SUPABASE_URL cfg ->
             validate_config cfg' = validate_config cfg).
Proof.
  split; [|split; [|split]].
  - unfold validate_config, missing, required.
    cbn [List.filter List.map snd fst].
    destruct (falsy (YOUTUBE_API_KEY cfg)), (falsy (host (DB_CONFIG cfg))),
      (falsy (password (DB_CONFIG cfg))), (falsy (SUPABASE_URL cfg));
      cbn; split; try discriminate; try tauto; intros (? & ? & ? & ?); discriminate.
  - unfold validate_config. destruct (missing cfg); discriminate.
  - unfold validate_config. intros e.
    destruct (missing cfg); [discriminate|].
    intros [= <-]. split; [reflexivity|discriminate].
  - intros cfg' Hkey Hhost Hpassword Hurl.
    unfold validate_config, missing, required.
    now rewrite Hkey, Hhost, Hpassword, Hurl.
Qed.

(** X21.  DB_PORT is converted before anything is validated: a value
    that is not an integer literal makes the import raise a
    [ValueError], also when required variables are missing, and the
    process ends with status 1 without a call to the network or the
    database. *)
Theorem malformed_port_aborts environ dotenv w v :
  let env := load_dotenv environ dotenv in
  env !! "DB_PORT" = Some v ->
  int_of_str v = None ->
  import_config env = Raise ValueError
  ∧ script environ dotenv w
    = (1, with_trace w (trace w ++ [ Uncaught ValueError ])).
Proof.
  intros env Hport Hint.
  assert (Himport : import_config env = Raise ValueError).
  { unfold import_config, db_port. rewrite Hport. cbn. now rewrite Hint. }
  split; [exact Himport|].
  unfold script. fold env. now rewrite Himport.
Qed.

(** X22.  What an import that succeeds has read: each global is the
    variable of its name, the four checked ones are set and not empty,
    the port is 5432 when DB_PORT is unset and the number written when
    it is a decimal text, and the channel identifier is the default
    only when YUURA_CHANNEL_ID is unset: a variable set to the empty
    text gives the empty identifier. *)
Theorem import_config_values env cfg :
  import_config env = Return cfg ->
  host (DB_CONFIG cfg) = env !! "DB_HOST"
  ∧ database (DB_CONFIG cfg) = env !! "DB_NAME"
  ∧ user (DB_CONFIG cfg) = env !! "DB_USER"
  ∧ password (DB_CONFIG cfg) = env !! "DB_PASSWORD"
  ∧ YOUTUBE_API_KEY cfg = env !! "YOUTUBE_API_KEY"
  ∧ SUPABASE_URL cfg = env !! "SUPABASE_URL"
  ∧ SUPABASE_KEY cfg = env !! "SUPABASE_KEY"
  ∧ missing_in env = []
  ∧ (env !! "DB_PORT" = None -> port (DB_CONFIG cfg) = 5432)
  ∧ (∀ n, env !! "DB_PORT" = Some (decimal n) -> port (DB_CONFIG cfg) = Z.of_N n)
  ∧ (env !! "YUURA_CHANNEL_ID" = None ->
       YUURA_CHANNEL_ID cfg = "UCrmtSeYObZJNG6OIC7Pw-_A")
  ∧ (∀ v, env !! "YUURA_CHANNEL_ID" = Some v -> YUURA_CHANNEL_ID cfg = v).
Proof.
  intros Himport.
  destruct (db_port env) as [p|e] eqn:Hport;
    [|unfold import_config in Himport; rewrite Hport in Himport; discriminate].
  rewrite (import_config_cases env p Hport) in Himport.
  destruct (missing_in env) as [|name names] eqn:Hmissing; [|discriminate].
  injection Himport as <-. cbn -[decimal]. unfold getenv, getenv_or.
  repeat split.
  - intros Hunset. unfold db_port in Hport. rewrite Hunset in Hport.
    now injection Hport.
  - intros n Hset. unfold db_port in Hport.
    rewrite Hset in Hport. cbv beta iota in Hport.
    now apply int_decimal_inv.
  - now intros ->.
  - now intros v ->.
Qed.

(** ** The theorems above at sample inputs *)

Lemma fetch_channel_stats_first_item_witness :
  fst (fetch_channel_stats (YouTube (Some "key")) channel
         (with_api world_ok (Return (PyDict items_two))))
  = fst (fetch_channel_stats (YouTube (Some "key")) channel
           (with_api world_ok (Return (PyDict items_one)))).
Proof.
  apply (fetch_channel_stats_first_item _ _ _ _ items_two items_one item_ok
           [ item_other ]); reflexivity.
Defined.

Lemma fetch_channel_stats_three_keys_witness :
  fst (fetch_channel_stats (YouTube (Some "key")) channel
         (with_api world_ok (Return response_ok)))
  = fst (fetch_channel_stats (YouTube (Some "key")) channel
           (with_api world_ok (Return (response_with statistics_plain)))).
Proof.
  apply (fetch_channel_stats_three_keys _ _ _ _ response_ok
           (response_with statistics_plain) statistics_ok statistics_plain);
    try reflexivity.
  intros key Hkey. unfold counter_keys in Hkey.
  repeat (apply elem_of_cons in Hkey; destruct Hkey as [->|Hkey]; [reflexivity|]).
  now apply elem_of_nil in Hkey.
Defined.

Lemma fetch_channel_stats_no_statistics_witness :
  fst (fetch_channel_stats (YouTube (Some "key")) channel
         (with_api world_ok (Return response_no_statistics)))
  = Return None.
Proof.
  apply (fetch_channel_stats_no_statistics _ _ _ response_no_statistics);
    [reflexivity|].
  intros d. vm_compute. discriminate.
Defined.

Lemma get_talent_id_first_match_witness :
  fst (get_talent_id PgConnection channel world_three_talents)
  = Return (Some talent_uuid).
Proof.
  apply (get_talent_id_first_match PgConnection channel world_three_talents
           [ {| Talents.id := "a"; Talents.youtube_id := "UCother" |} ]
           {| Talents.id := talent_uuid; Talents.youtube_id := channel |}
           [ {| Talents.id := "c"; Talents.youtube_id := channel |} ]);
    try reflexivity.
  repeat constructor. discriminate.
Defined.

Lemma cursor_closed_only_on_success_witness :
  count is_cursor_close (added (get_talent_id PgConnection channel) world_ok) = 1%nat
  ∧ count is_cursor_close
      (added (save_snapshot PgConnection talent_uuid stats_ok) world_ok) = 1%nat
  ∧ count is_cursor_close
      (added (get_talent_id PgConnection channel) world_insert_type_error) = 0%nat
  ∧ count is_cursor_close
      (added (save_snapshot PgConnection talent_uuid stats_ok)
         world_insert_type_error) = 0%nat.
Proof.
  destruct (cursor_closed_only_on_success PgConnection channel talent_uuid stats_ok
              world_ok) as [Hok _].
  destruct (cursor_closed_only_on_success PgConnection channel talent_uuid stats_ok
              world_insert_type_error) as [_ Hfails].
  destruct (Hok eq_refl) as [H1 H2].
  destruct (Hfails TypeError eq_refl) as [H3 H4].
  exact (conj H1 (conj H2 (conj H3 H4))).
Defined.

Lemma save_snapshot_lets_through_witness :
  fst (save_snapshot PgConnection talent_uuid stats_ok world_insert_type_error)
  = Raise TypeError
  ∧ snapshots
      (snd (save_snapshot PgConnection talent_uuid stats_ok world_insert_type_error))
    = [].
Proof.
  destruct (save_snapshot_lets_through PgConnection talent_uuid stats_ok
              world_insert_type_error TypeError) as (Hraise & _ & Hrows);
    [reflexivity|reflexivity|].
  split; [exact Hraise|exact Hrows].
Defined.

Lemma main_build_failure_witness :
  exit_code cfg_ok world_build_fails = Return 1
  ∧ events cfg_ok world_build_fails
    = [ Print (Banner channel); Print ConnectingApi; ApiBuild (Some "key");
        Print (UnexpectedError TransportError) ].
Proof.
  destruct (main_build_failure cfg_ok world_build_fails TransportError)
    as (Hcode & Hevents & _); [reflexivity|].
  split; [exact Hcode|exact Hevents].
Defined.

Lemma main_connect_failure_witness :
  exit_code cfg_ok world_connect_fails = Return 1
  ∧ connection (final cfg_ok world_connect_fails) = None
  ∧ snapshots (final cfg_ok world_connect_fails) = [].
Proof.
  destruct (main_connect_failure cfg_ok world_connect_fails stats_ok
              (Psycopg2Error OperationalError) [])
    as (Hcode & _ & Hconn & _ & Hrows); [reflexivity|reflexivity|reflexivity|].
  split; [exact Hcode|]. split; [exact Hconn|exact Hrows].
Defined.

Lemma main_twice_witness :
  snapshots (final cfg_ok (at_time (final cfg_ok world_ok) 1700086400))
  = [ snapshot_row talent_uuid stats_ok 1700000000;
      snapshot_row talent_uuid stats_ok 1700086400 ].
Proof.
  destruct (main_twice cfg_ok world_ok stats_ok talent_uuid 1700086400)
    as (_ & _ & Hrows);
    [reflexivity|reflexivity|constructor|reflexivity|discriminate|exact Hrows].
Defined.

Lemma malformed_port_aborts_witness :
  import_config (load_dotenv environ_empty_port ∅) = Raise ValueError
  ∧ script environ_empty_port ∅ world_ok
    = (1, with_trace world_ok [ Uncaught ValueError ]).
Proof.
  apply (malformed_port_aborts environ_empty_port ∅ world_ok ""); reflexivity.
Defined.

Lemma import_config_values_witness :
  port (DB_CONFIG cfg_ok) = 5432
  ∧ YUURA_CHANNEL_ID cfg_ok = "UCrmtSeYObZJNG6OIC7Pw-_A"
  ∧ SUPABASE_KEY cfg_ok = None.
Proof.
  destruct (import_config_values environ_ok cfg_ok)
    as (_ & _ & _ & _ & _ & _ & Hkey & _ & Hport & _ & Hchannel & _);
    [vm_compute; reflexivity|].
  split; [apply Hport; reflexivity|].
  split; [apply Hchannel; reflexivity|exact Hkey].
Defined.

Lemma fetch_channel_stats_unsigned_witness :
  fst (fetch_channel_stats (YouTube (Some "key")) channel
         (with_api world_ok (Return response_ok)))
  = Return (Some stats_ok).
Proof.
  apply (fetch_channel_stats_unsigned (YouTube (Some "key")) channel
           (with_api world_ok (Return response_ok)) response_ok statistics_ok
           1200 34000 56); reflexivity.
Defined.

Lemma fetch_channel_stats_not_a_number_witness :
  fst (fetch_channel_stats (YouTube (Some "key")) channel
         (with_api world_ok (Return (response_with statistics_abbreviated))))
  = Return None.
Proof.
  apply (fetch_channel_stats_not_a_number _ _ _
           (response_with statistics_abbreviated) statistics_abbreviated
           "subscriberCount" (PyStr "1.2K") ValueError); try reflexivity.
  unfold counter_keys.
  repeat first [apply list_elem_of_here | apply list_elem_of_further].
Defined.

Lemma save_snapshot_commits_witness :
  ∃ w',
    save_snapshot PgConnection talent_uuid stats_ok world_ok = (Return true, w')
    ∧ snapshots w' = [ snapshot_row talent_uuid stats_ok 1700000000 ]
    ∧ pending w' = [].
Proof.
  apply (save_snapshot_commits PgConnection talent_uuid stats_ok world_ok).
  reflexivity.
Defined.
